(** * Sportify rep counter: a shallow embedding of [ml/inference/rep_counter.py]

    The module counts exercise repetitions from per-frame pose landmarks.
    Python [float] and NumPy [float64] are IEEE-754 binary64, which is what
    Rocq's primitive [float] is; comparisons, [+], [-], [*], [/], [sqrt] and
    [abs] below are the kernel's binary64 operations.  Python dictionaries
    are finite maps ([gmap]) keyed by strings.  A Python exception
    ([KeyError], [ValueError]) is the result [None]. *)

From Stdlib Require Import ZArith Floats Lia Bool.
From stdpp Require Import gmap strings list fin_maps.

#[local] Set Warnings "-inexact-float".
#[local] Open Scope Z_scope.

(** ** Enumerations and landmarks *)

Inductive ExerciseType := SQUAT | PUSHUP | JUMP | PULLUP.

Inductive ExercisePhase := NEUTRAL | DOWN | UP | EXTENDED.

#[global] Instance ExerciseType_eq_dec : EqDecision ExerciseType.
Proof. solve_decision. Defined.

#[global] Instance ExercisePhase_eq_dec : EqDecision ExercisePhase.
Proof. solve_decision. Defined.

(** [ExerciseType(s)]: lookup of an enumeration member by value; an unknown
    value raises [ValueError]. *)
Definition ExerciseType_of_value (s : string) : option ExerciseType :=
  if decide (s = "squat") then Some SQUAT
  else if decide (s = "pushup") then Some PUSHUP
  else if decide (s = "jump") then Some JUMP
  else if decide (s = "pullup") then Some PULLUP
  else None.

(** [exercise_type.value] *)
Definition ExerciseType_value (t : ExerciseType) : string :=
  match t with
  | SQUAT => "squat"
  | PUSHUP => "pushup"
  | JUMP => "jump"
  | PULLUP => "pullup"
  end.

(** [phase.value] *)
Definition phase_value (p : ExercisePhase) : string :=
  match p with
  | NEUTRAL => "neutral"
  | DOWN => "down"
  | UP => "up"
  | EXTENDED => "extended"
  end.

(** [@dataclass PoseLandmark] *)
Record PoseLandmark := mkPoseLandmark {
  x : float;
  y : float;
  visibility : float
}.

(** Values stored in the analysis dictionaries: [int], [float], [str] and
    lists of [str]. *)
Inductive PyVal :=
| PyInt (n : Z)
| PyFloat (f : float)
| PyStr (s : string)
| PyStrList (l : list string).

(** ** Binary64 constants and NumPy primitives *)

Module F.

(** [math.pi] as a binary64 value ([NPY_PI]). *)
Definition pi : float := 0x1.921fb54442d18p+1%float.

(** A float that is a signed zero or NaN: the only values a difference
    [a - a] can take. *)
Definition is_zero_or_nan (a : float) : Prop :=
  match Prim2SF a with
  | S754_zero _ | S754_nan => True
  | _ => False
  end.

(** A signed zero; a signed infinity. *)
Definition is_zero (a : float) : Prop :=
  match Prim2SF a with
  | S754_zero _ => True
  | _ => False
  end.

Definition is_infinite (a : float) : Prop :=
  match Prim2SF a with
  | S754_infinity _ => True
  | _ => False
  end.

(** [lo <= a <= hi] as two IEEE comparisons (both false on NaN). *)
Definition between (lo hi a : float) : Prop :=
  (lo <=? a)%float = true /\ (a <=? hi)%float = true.

(** The fused multiply-add [x * y + z] of IEEE-754, rounded once.  For
    finite non-zero operands the product enters the sum exactly, as the
    unrounded mantissa [mx * my] with exponent [ex + ey].  With [z] a zero
    the result is the rounded product; with [z] infinite or NaN it is [z];
    a product with a zero, infinite or NaN factor is exact as it is. *)
Definition fma (x y z : float) : float :=
  match Prim2SF x, Prim2SF y, Prim2SF z with
  | S754_finite sx mx ex, S754_finite sy my ey, S754_finite _ _ _ =>
      SF2Prim (SF64add (S754_finite (xorb sx sy) (mx * my) (ex + ey)) (Prim2SF z))
  | S754_finite _ _ _, S754_finite _ _ _, S754_zero _ => (x * y)%float
  | S754_finite _ _ _, S754_finite _ _ _, _ => z
  | _, _, _ => (x * y + z)%float
  end.

End F.

(** The NumPy functions [calculate_angle] calls, on two-element vectors.
    Differences, the product of the norms and the quotient are rounded on
    their own; [np.dot] accumulates with fused multiply-adds.  Scalar
    [float64] division never raises: [0/0] is NaN (NumPy only emits a
    [RuntimeWarning]). *)
Module np.

#[local] Open Scope float_scope.

Definition vec : Type := float * float.

(** [np.array([p.x, p.y])] *)
Definition array (p : PoseLandmark) : vec := (x p, y p).

(** [u - v], elementwise *)
Definition sub (u v : vec) : vec := (u.1 - v.1, u.2 - v.2).

(** [np.dot(u, v)] on [float64] vectors is the BLAS [ddot] kernel:
    [dot = 0.0], then [dot += u[i] * v[i]] for each [i], every step one
    fused multiply-add.  The first step gives the rounded product; the
    second product is added to it unrounded. *)
Definition dot (u v : vec) : float := F.fma u.2 v.2 (F.fma u.1 v.1 0).

(** [np.linalg.norm(u)]: for a real vector, [sqrt(dot(u, u))]. *)
Definition norm (u : vec) : float := sqrt (dot u u).

(** The scalar kernels of [np.clip]: a NaN operand is returned as it is. *)
Definition maximum (a b : float) : float :=
  if is_nan a then a else if a <? b then b else a.

Definition minimum (a b : float) : float :=
  if is_nan a then a else if b <? a then b else a.

(** [np.clip(a, lo, hi)] = [minimum(maximum(a, lo), hi)] *)
Definition clip (a lo hi : float) : float := minimum (maximum a lo) hi.

(** [np.degrees(r)] = [r * (180 / pi)] *)
Definition degrees (r : float) : float := r * (180 / F.pi).

End np.

(** A three-level staircase that agrees with the mathematical arc cosine at
    [-1], [0] and [1] and propagates NaN.  It is used only to instantiate
    the [arccos] parameter in the closed examples. *)
Definition arccos_step (c : float) : float :=
  if is_nan c then nan
  else if (c <? -0.5)%float then F.pi
  else if (c <=? 0.5)%float then (F.pi / 2)%float
  else 0%float.

(** ** The program *)

(** [RepCounter] instance attributes.  [baseline_y] is an attribute that
    exists only after the first jump frame ([hasattr]); [None] is "no such
    attribute".  The [posture_analyzer] attribute carries no state besides
    the exercise type and is not stored.  Threshold values are compared with
    float signals only, so the integer literals are stored as the floats of
    the same value. *)
Record RepCounter := mkRepCounter {
  exercise_type : ExerciseType;
  confidence_threshold : float;
  rep_count : Z;
  current_phase : ExercisePhase;
  phase_history : list ExercisePhase;
  thresholds : gmap string float;
  baseline_y : option float
}.

Definition set_current_phase (p : ExercisePhase) (self : RepCounter) : RepCounter :=
  mkRepCounter (exercise_type self) (confidence_threshold self) (rep_count self)
    p (phase_history self) (thresholds self) (baseline_y self).

Definition set_rep_count (n : Z) (self : RepCounter) : RepCounter :=
  mkRepCounter (exercise_type self) (confidence_threshold self) n
    (current_phase self) (phase_history self) (thresholds self) (baseline_y self).

Definition set_baseline_y (b : option float) (self : RepCounter) : RepCounter :=
  mkRepCounter (exercise_type self) (confidence_threshold self) (rep_count self)
    (current_phase self) (phase_history self) (thresholds self) b.

Definition set_phase_history (h : list ExercisePhase) (self : RepCounter) : RepCounter :=
  mkRepCounter (exercise_type self) (confidence_threshold self) (rep_count self)
    (current_phase self) h (thresholds self) (baseline_y self).

(** [RepCounter._get_exercise_thresholds] *)
Definition _get_exercise_thresholds (t : ExerciseType) : gmap string float :=
  match t with
  | SQUAT => {[ "down_threshold" := 110%float; "up_threshold" := 160%float;
                "min_hold_frames" := 3%float ]}
  | PUSHUP => {[ "down_threshold" := 90%float; "up_threshold" := 160%float;
                 "min_hold_frames" := 2%float ]}
  | JUMP => {[ "up_threshold" := 0.1%float; "down_threshold" := (-0.05)%float;
               "min_hold_frames" := 2%float ]}
  | PULLUP => ∅
  end.

(** [RepCounter.__init__] *)
Definition RepCounter_init (exercise_type : string) (confidence_threshold : float)
  : option RepCounter :=
  t ← ExerciseType_of_value exercise_type;
  Some (mkRepCounter t confidence_threshold 0 NEUTRAL [] (_get_exercise_thresholds t) None).

(** [RepCounter.reset] *)
Definition reset (self : RepCounter) : RepCounter :=
  let self := set_rep_count 0 self in
  let self := set_current_phase NEUTRAL self in
  let self := set_phase_history [] self in
  match baseline_y self with
  | Some _ => set_baseline_y None self
  | None => self
  end.

(** [RepCounter.get_statistics]: the values under the keys [total_reps],
    [current_phase], [exercise_type] and [phase_history], in this order. *)
Definition get_statistics (self : RepCounter)
  : Z * string * string * list ExercisePhase :=
  (rep_count self, phase_value (current_phase self),
   ExerciseType_value (exercise_type self), phase_history self).

Definition landmark_names : list string :=
  [ "nose"; "left_eye_inner"; "left_eye"; "left_eye_outer";
    "right_eye_inner"; "right_eye"; "right_eye_outer";
    "left_ear"; "right_ear"; "mouth_left"; "mouth_right";
    "left_shoulder"; "right_shoulder"; "left_elbow"; "right_elbow";
    "left_wrist"; "right_wrist"; "left_pinky"; "right_pinky";
    "left_index"; "right_index"; "left_thumb"; "right_thumb";
    "left_hip"; "right_hip"; "left_knee"; "right_knee";
    "left_ankle"; "right_ankle"; "left_heel"; "right_heel";
    "left_foot_index"; "right_foot_index" ].

(** The pose detector's per-frame result: [None] when no pose was found,
    otherwise the [.landmark] sequence, of which the code reads [x], [y] and
    [visibility]. *)
Definition MPLandmarks : Type := option (list PoseLandmark).

(** [RepCounter._mediapipe_to_landmarks]: the [i]-th detected landmark is
    stored under the [i]-th name, for [i < len(landmark_names)]. *)
Definition _mediapipe_to_landmarks (mp_landmarks : MPLandmarks)
  : gmap string PoseLandmark :=
  match mp_landmarks with
  | Some landmark =>
      foldl (fun landmarks '(i, lm) =>
               match landmark_names !! i with
               | Some name => <[ name := mkPoseLandmark (x lm) (y lm) (visibility lm) ]> landmarks
               | None => landmarks
               end)
            ∅ (zip (seq 0 (length landmark)) landmark)
  | None => ∅
  end.

(** What [update] returns: [(rep_count, current_phase.value, analysis)]. *)
Definition Output : Type := Z * string * gmap string PyVal.

(** The block under [# State machine for squat counting], which is repeated
    word for word for push-ups: [signal] is the knee or elbow angle. *)
Definition angle_state_machine (signal : float) (self : RepCounter) : option RepCounter :=
  match current_phase self with
  | NEUTRAL =>
      down ← thresholds self !! "down_threshold";
      Some (if (signal <? down)%float then set_current_phase DOWN self else self)
  | DOWN =>
      up ← thresholds self !! "up_threshold";
      Some (if (up <? signal)%float
            then let self := set_current_phase UP self in
                 set_rep_count (rep_count self + 1) self
            else self)
  | UP =>
      up ← thresholds self !! "up_threshold";
      Some (if (up <? signal)%float then set_current_phase NEUTRAL self else self)
  | EXTENDED => Some self
  end.

(** The block under [# State machine for jump counting]. *)
Definition jump_state_machine (displacement : float) (self : RepCounter) : option RepCounter :=
  match current_phase self with
  | NEUTRAL =>
      up ← thresholds self !! "up_threshold";
      Some (if (up <? displacement)%float then set_current_phase UP self else self)
  | UP =>
      down ← thresholds self !! "down_threshold";
      Some (if (displacement <? down)%float
            then let self := set_current_phase DOWN self in
                 set_rep_count (rep_count self + 1) self
            else self)
  | DOWN =>
      Some (if (abs displacement <? 0.02)%float then set_current_phase NEUTRAL self else self)
  | EXTENDED => Some self
  end.

(** [analysis['rep_count'] = ...; analysis['phase'] = ...] and the returned
    triple. *)
Definition finish (analysis : gmap string PyVal) (self : RepCounter) : RepCounter * Output :=
  let analysis := <[ "rep_count" := PyInt (rep_count self) ]> analysis in
  let analysis := <[ "phase" := PyStr (phase_value (current_phase self)) ]> analysis in
  (self, (rep_count self, phase_value (current_phase self), analysis)).

(** [return self.rep_count, self.current_phase.value, analysis] with the
    counter untouched. *)
Definition unchanged (analysis : gmap string PyVal) (self : RepCounter) : RepCounter * Output :=
  (self, (rep_count self, phase_value (current_phase self), analysis)).

(** [RepCounter._count_jumps] *)
Definition _count_jumps (landmarks : gmap string PoseLandmark) (self : RepCounter)
  : option (RepCounter * Output) :=
  let analysis : gmap string PyVal := {[ "score" := PyInt 100; "errors" := PyStrList [] ]} in
  match landmarks !! "left_ankle", landmarks !! "right_ankle" with
  | Some left_ankle, Some right_ankle =>
      let avg_ankle_y := ((y left_ankle + y right_ankle) / 2)%float in
      let self := match baseline_y self with
                  | Some _ => self
                  | None => set_baseline_y (Some avg_ankle_y) self
                  end in
      baseline ← baseline_y self;
      let displacement := (baseline - avg_ankle_y)%float in
      self ← jump_state_machine displacement self;
      let '(self, (n, p, analysis)) := finish analysis self in
      Some (self, (n, p, <[ "displacement" := PyFloat displacement ]> analysis))
  | _, _ => Some (unchanged analysis self)
  end.

(** The local [cosine_angle] of [AngleCalculator.calculate_angle]: the
    quotient handed to [np.clip]. *)
Definition cosine_angle (point1 point2 point3 : PoseLandmark) : float :=
  let a := np.array point1 in
  let b := np.array point2 in
  let c := np.array point3 in
  let ba := np.sub a b in
  let bc := np.sub c b in
  (np.dot ba bc / (np.norm ba * np.norm bc))%float.

(** The state machine alone, fed one angle per frame. *)
Fixpoint feed_angles (angles : list float) (self : RepCounter) : option RepCounter :=
  match angles with
  | [] => Some self
  | angle :: angles =>
      self ← angle_state_machine angle self;
      feed_angles angles self
  end.

Section Model.

(** [np.arccos], the one library function that is not a binary64 primitive. *)
Variable arccos : float -> float.

(** [AngleCalculator.calculate_angle] *)
Definition calculate_angle (point1 point2 point3 : PoseLandmark) : float :=
  let cosine_angle := cosine_angle point1 point2 point3 in
  let angle := arccos (np.clip cosine_angle (-1) 1) in
  np.degrees angle.

(** [all(landmarks.get(lm) and landmarks[lm].visibility > 0.5 for lm in
    required_landmarks)]; a [PoseLandmark] instance is always truthy. *)
Definition all_visible (landmarks : gmap string PoseLandmark) (required_landmarks : list string)
  : bool :=
  forallb (fun lm => match landmarks !! lm with
                     | Some p => (0.5 <? visibility p)%float
                     | None => false
                     end) required_landmarks.

Definition not_visible : gmap string PyVal :=
  {[ "score" := PyInt 0; "errors" := PyStrList ["Pose not clearly visible"] ]}.

Definition squat_required : list string :=
  ["left_hip"; "left_knee"; "left_ankle"; "left_shoulder"].

Definition pushup_required : list string :=
  ["left_shoulder"; "left_elbow"; "left_wrist"; "left_hip"].

(** [PostureAnalyzer.analyze_squat_posture]; a subscript [landmarks[k]] of
    a missing key is [None] ([KeyError]). *)
Definition analyze_squat_posture (landmarks : gmap string PoseLandmark)
  : option (gmap string PyVal) :=
  let errors : list string := [] in
  let score := 100 in
  if negb (all_visible landmarks squat_required) then Some not_visible
  else
    left_hip ← landmarks !! "left_hip";
    left_knee ← landmarks !! "left_knee";
    left_ankle ← landmarks !! "left_ankle";
    let knee_angle := calculate_angle left_hip left_knee left_ankle in
    let '(errors, score) :=
      if (knee_angle <? 70)%float then (errors ++ ["Squat too deep"], score - 10)
      else if (160 <? knee_angle)%float then (errors ++ ["Squat not deep enough"], score - 15)
      else (errors, score) in
    left_shoulder ← landmarks !! "left_shoulder";
    left_hip ← landmarks !! "left_hip";
    left_knee ← landmarks !! "left_knee";
    let back_angle := calculate_angle left_shoulder left_hip left_knee in
    let '(errors, score) :=
      if (back_angle <? 160)%float then (errors ++ ["Back bent forward"], score - 20)
      else (errors, score) in
    Some {[ "score" := PyInt (Z.max 0 score); "errors" := PyStrList errors;
            "knee_angle" := PyFloat knee_angle; "back_angle" := PyFloat back_angle ]}.

(** [PostureAnalyzer.analyze_pushup_posture] *)
Definition analyze_pushup_posture (landmarks : gmap string PoseLandmark)
  : option (gmap string PyVal) :=
  let errors : list string := [] in
  let score := 100 in
  if negb (all_visible landmarks pushup_required) then Some not_visible
  else
    left_shoulder ← landmarks !! "left_shoulder";
    left_elbow ← landmarks !! "left_elbow";
    left_wrist ← landmarks !! "left_wrist";
    let elbow_angle := calculate_angle left_shoulder left_elbow left_wrist in
    let '(errors, score) :=
      if (170 <? elbow_angle)%float
      then (errors ++ ["Lower chest closer to ground"], score - 15)
      else if (elbow_angle <? 45)%float
      then (errors ++ ["Chest too close to ground"], score - 10)
      else (errors, score) in
    left_shoulder ← landmarks !! "left_shoulder";
    left_hip ← landmarks !! "left_hip";
    third ← match landmarks !! "left_knee" with
            | Some _ => landmarks !! "left_knee"
            | None => landmarks !! "left_hip"
            end;
    let body_angle := calculate_angle left_shoulder left_hip third in
    let '(errors, score) :=
      if (body_angle <? 160)%float
      then (errors ++ ["Keep body in straight line"], score - 20)
      else (errors, score) in
    Some {[ "score" := PyInt (Z.max 0 score); "errors" := PyStrList errors;
            "elbow_angle" := PyFloat elbow_angle; "body_angle" := PyFloat body_angle ]}.

(** The angle read back from the analysis; anything but a float under the
    key would be a [TypeError] at the comparison. *)
Definition as_float (v : PyVal) : option float :=
  match v with PyFloat f => Some f | _ => None end.

(** [RepCounter._count_squats] *)
Definition _count_squats (landmarks : gmap string PoseLandmark) (self : RepCounter)
  : option (RepCounter * Output) :=
  analysis ← analyze_squat_posture landmarks;
  match analysis !! "knee_angle" with
  | None => Some (unchanged analysis self)
  | Some v =>
      knee_angle ← as_float v;
      self ← angle_state_machine knee_angle self;
      Some (finish analysis self)
  end.

(** [RepCounter._count_pushups] *)
Definition _count_pushups (landmarks : gmap string PoseLandmark) (self : RepCounter)
  : option (RepCounter * Output) :=
  analysis ← analyze_pushup_posture landmarks;
  match analysis !! "elbow_angle" with
  | None => Some (unchanged analysis self)
  | Some v =>
      elbow_angle ← as_float v;
      self ← angle_state_machine elbow_angle self;
      Some (finish analysis self)
  end.

(** [RepCounter.update] *)
Definition update (mp_landmarks : MPLandmarks) (self : RepCounter)
  : option (RepCounter * Output) :=
  let landmarks := _mediapipe_to_landmarks mp_landmarks in
  if decide (landmarks = ∅) then Some (unchanged ∅ self)
  else match exercise_type self with
       | SQUAT => _count_squats landmarks self
       | PUSHUP => _count_pushups landmarks self
       | JUMP => _count_jumps landmarks self
       | PULLUP => Some (unchanged ∅ self)
       end.

(** A session: [update] called once per frame, in order; the outputs are
    collected. *)
Fixpoint run (frames : list MPLandmarks) (self : RepCounter)
  : option (RepCounter * list Output) :=
  match frames with
  | [] => Some (self, [])
  | f :: frames =>
      '(self, out) ← update f self;
      '(self, outs) ← run frames self;
      Some (self, out :: outs)
  end.

(** The knee angle [_count_squats] reads from a frame's analysis, if the
    analysis has one. *)
Definition knee_reading (mp_landmarks : MPLandmarks) : option float :=
  analysis ← analyze_squat_posture (_mediapipe_to_landmarks mp_landmarks);
  v ← analysis !! "knee_angle";
  as_float v.

(** The counters a caller can hold: built by the constructor, then driven
    through [update] and [reset]. *)
Inductive reachable : RepCounter -> Prop :=
| reachable_init name ct self :
    RepCounter_init name ct = Some self -> reachable self
| reachable_update self mp self' out :
    reachable self -> update mp self = Some (self', out) -> reachable self'
| reachable_reset self :
    reachable self -> reachable (reset self).

End Model.

(** ** Vocabulary of the statements *)

(** The constructor's invariant: the threshold table is the one of the
    exercise type, the phase history stays empty, [EXTENDED] is never
    entered and the count is not negative. *)
Definition wf (self : RepCounter) : Prop :=
  thresholds self = _get_exercise_thresholds (exercise_type self) /\
  phase_history self = [] /\
  current_phase self <> EXTENDED /\
  0 <= rep_count self.

(** A joint that is absent from the landmark set or has visibility at most
    0.5. *)
Definition unusable (landmarks : gmap string PoseLandmark) (lm : string) : Prop :=
  landmarks !! lm = None \/
  exists p, landmarks !! lm = Some p /\ (visibility p <=? 0.5)%float = true.

(** The phase that follows [p] in the cycle of exercise [t]:
    neutral, down, up, neutral for squat and push-up;
    neutral, up, down, neutral for jump. *)
Definition cycle_next (t : ExerciseType) (p : ExercisePhase) : ExercisePhase :=
  match t, p with
  | (SQUAT | PUSHUP), NEUTRAL => DOWN
  | (SQUAT | PUSHUP), DOWN => UP
  | (SQUAT | PUSHUP), UP => NEUTRAL
  | JUMP, NEUTRAL => UP
  | JUMP, UP => DOWN
  | JUMP, DOWN => NEUTRAL
  | _, _ => p
  end.

(** The analysis returned by [analyze_squat_posture] once the visibility
    gate is passed, as a function of the two angles. *)
Definition squat_report (knee_angle back_angle : float) : gmap string PyVal :=
  let knee_deduction :=
    if (knee_angle <? 70)%float then 10
    else if (160 <? knee_angle)%float then 15 else 0 in
  let knee_errors :=
    if (knee_angle <? 70)%float then ["Squat too deep"]
    else if (160 <? knee_angle)%float then ["Squat not deep enough"] else [] in
  let back_deduction := if (back_angle <? 160)%float then 20 else 0 in
  let back_errors := if (back_angle <? 160)%float then ["Back bent forward"] else [] in
  {[ "score" := PyInt (Z.max 0 (100 - knee_deduction - back_deduction));
     "errors" := PyStrList (knee_errors ++ back_errors);
     "knee_angle" := PyFloat knee_angle; "back_angle" := PyFloat back_angle ]}.

(** The same for [analyze_pushup_posture]. *)
Definition pushup_report (elbow_angle body_angle : float) : gmap string PyVal :=
  let elbow_deduction :=
    if (170 <? elbow_angle)%float then 15
    else if (elbow_angle <? 45)%float then 10 else 0 in
  let elbow_errors :=
    if (170 <? elbow_angle)%float then ["Lower chest closer to ground"]
    else if (elbow_angle <? 45)%float then ["Chest too close to ground"] else [] in
  let body_deduction := if (body_angle <? 160)%float then 20 else 0 in
  let body_errors :=
    if (body_angle <? 160)%float then ["Keep body in straight line"] else [] in
  {[ "score" := PyInt (Z.max 0 (100 - elbow_deduction - body_deduction));
     "errors" := PyStrList (elbow_errors ++ body_errors);
     "elbow_angle" := PyFloat elbow_angle; "body_angle" := PyFloat body_angle ]}.

(** The counter with another stored [confidence_threshold]. *)
Definition set_confidence_threshold (ct : float) (self : RepCounter) : RepCounter :=
  mkRepCounter (exercise_type self) ct (rep_count self)
    (current_phase self) (phase_history self) (thresholds self) (baseline_y self).

(** The result of an update, with another stored threshold. *)
Definition retag (ct : float) (r : RepCounter * Output) : RepCounter * Output :=
  (set_confidence_threshold ct r.1, r.2).

(** The repetition counts reported by a list of outputs. *)
Definition counts (outs : list Output) : list Z := (fun o : Output => o.1.1) <$> outs.

(** What one pass through a state machine may change: the phase and the
    count, the latter by one and only on the counting edge. *)
Definition stepped (self self' : RepCounter) : Prop :=
  exercise_type self' = exercise_type self /\
  confidence_threshold self' = confidence_threshold self /\
  thresholds self' = thresholds self /\
  phase_history self' = phase_history self /\
  current_phase self' <> EXTENDED /\
  (current_phase self' = current_phase self \/
   current_phase self' = cycle_next (exercise_type self) (current_phase self)) /\
  (rep_count self' = rep_count self \/ rep_count self' = rep_count self + 1) /\
  (rep_count self' = rep_count self + 1 <->
   ((exercise_type self = SQUAT \/ exercise_type self = PUSHUP) /\
    current_phase self = DOWN /\ current_phase self' = UP) \/
   (exercise_type self = JUMP /\
    current_phase self = UP /\ current_phase self' = DOWN)).

(** The analysis [_count_jumps] starts from. *)
Definition jump_analysis : gmap string PyVal :=
  {[ "score" := PyInt 100; "errors" := PyStrList [] ]}.

(** A list of counts that never goes down. *)
Fixpoint nondecreasing (l : list Z) : Prop :=
  match l with
  | a :: (b :: _) as rest => a <= b /\ nondecreasing rest
  | _ => True
  end.

(** ** Sample frames

    A frame lists the detector's landmarks in [landmark_names] order.
    [pose_of joints] places the listed joints and leaves every other joint
    at the origin with visibility 0. *)
Definition pose_of (joints : list (string * PoseLandmark)) : list PoseLandmark :=
  let placed : gmap string PoseLandmark := list_to_map joints in
  (fun name => default (mkPoseLandmark 0 0 0) (placed !! name)) <$> landmark_names.

Definition joint (px py : float) : PoseLandmark := mkPoseLandmark px py 1.

(** Standing upright, left side to the camera: knee and back straight. *)
Definition standing : MPLandmarks :=
  Some (pose_of [ ("left_shoulder", joint 0.5 0.25); ("left_hip", joint 0.5 0.5);
                  ("left_knee", joint 0.5 0.75); ("left_ankle", joint 0.5 1) ]).

(** Knee bent at a right angle. *)
Definition squatting : MPLandmarks :=
  Some (pose_of [ ("left_shoulder", joint 0.5 0.25); ("left_hip", joint 0.5 0.5);
                  ("left_knee", joint 0.5 0.75); ("left_ankle", joint 0.75 0.75) ]).

(** The standing pose with the knee reported at visibility 0.25. *)
Definition knee_hidden : MPLandmarks :=
  Some (pose_of [ ("left_shoulder", joint 0.5 0.25); ("left_hip", joint 0.5 0.5);
                  ("left_knee", mkPoseLandmark 0.5 0.75 0.25);
                  ("left_ankle", joint 0.5 1) ]).

(** A push-up frame cut off after [right_hip]: arm stretched out in a
    line, no [left_knee] reported. *)
Definition plank_no_knee : MPLandmarks :=
  Some (take 25 (pose_of [ ("left_shoulder", joint 0.25 0.5);
                           ("left_elbow", joint 0.25 0.75);
                           ("left_wrist", joint 0.25 1);
                           ("left_hip", joint 0.75 0.5) ])).

(** Both ankles reported with visibility 0.25, at height 0.5. *)
Definition ankles_hidden : MPLandmarks :=
  Some (pose_of [ ("left_ankle", mkPoseLandmark 0.25 0.5 0.25);
                  ("right_ankle", mkPoseLandmark 0.75 0.5 0.25) ]).

(** Both ankles fully visible, at height [h]. *)
Definition ankles_at (h : float) : MPLandmarks :=
  Some (pose_of [ ("left_ankle", joint 0.25 h); ("right_ankle", joint 0.75 h) ]).


(** Three distinct points whose distances are [2^-600]: the squared
    lengths underflow to 0. *)
Definition tiny_a : PoseLandmark := joint 0x1p-600 0.

Definition tiny_b : PoseLandmark := joint 0 0.

Definition tiny_c : PoseLandmark := joint 0 0x1p-600.

(** ** Binary64 facts

    The kernel's float operations are specified through [Prim2SF] by the
    library's [FloatAxioms]; these are the order and NaN facts used below. *)

Module FloatFacts.

#[local] Open Scope float_scope.

Lemma Prim2SF_nan_inv (a : float) : Prim2SF a = S754_nan -> a = nan.
Proof. intros H. apply Prim2SF_inj. rewrite H. reflexivity. Qed.

Lemma sub_self_zn (a : float) : F.is_zero_or_nan (a - a).
Proof.
  unfold F.is_zero_or_nan. rewrite FloatAxioms.sub_spec.
  destruct (Prim2SF a) as [s|s| |s m e]; try (destruct s; exact I); try exact I.
  unfold SF64sub, SFsub. rewrite Z.sub_diag. exact I.
Qed.

Lemma mul_zn_r (a b : float) : F.is_zero_or_nan b -> F.is_zero_or_nan (a * b).
Proof.
  unfold F.is_zero_or_nan. rewrite FloatAxioms.mul_spec.
  destruct (Prim2SF a) as [s|s| |s m e], (Prim2SF b) as [s'|s'| |s' m' e'];
    cbn; tauto.
Qed.

Lemma mul_zn_l (a b : float) : F.is_zero_or_nan a -> F.is_zero_or_nan (a * b).
Proof.
  unfold F.is_zero_or_nan. rewrite FloatAxioms.mul_spec.
  destruct (Prim2SF a) as [s|s| |s m e], (Prim2SF b) as [s'|s'| |s' m' e'];
    cbn; tauto.
Qed.

Lemma add_zn (a b : float) :
  F.is_zero_or_nan a -> F.is_zero_or_nan b -> F.is_zero_or_nan (a + b).
Proof.
  unfold F.is_zero_or_nan. rewrite FloatAxioms.add_spec.
  destruct (Prim2SF a) as [s|s| |s m e], (Prim2SF b) as [s'|s'| |s' m' e'];
    cbn; try tauto.
  destruct s, s'; cbn; tauto.
Qed.

Lemma sqrt_zn (a : float) : F.is_zero_or_nan a -> F.is_zero_or_nan (sqrt a).
Proof.
  unfold F.is_zero_or_nan. rewrite FloatAxioms.sqrt_spec.
  destruct (Prim2SF a) as [s|s| |s m e]; cbn; tauto.
Qed.

(** [0/0], [0/NaN], [NaN/0] and [NaN/NaN] are all NaN. *)
Lemma div_zn (a b : float) :
  F.is_zero_or_nan a -> F.is_zero_or_nan b -> a / b = nan.
Proof.
  unfold F.is_zero_or_nan. intros Ha Hb. apply Prim2SF_nan_inv.
  rewrite FloatAxioms.div_spec.
  destruct (Prim2SF a) as [s|s| |s m e], (Prim2SF b) as [s'|s'| |s' m' e'];
    cbn; tauto.
Qed.

Lemma SFcompare_antisym (a b : spec_float) :
  SFcompare b a = option_map CompOpp (SFcompare a b).
Proof.
  destruct a as [s|s| |s m e], b as [s'|s'| |s' m' e']; cbn; try reflexivity;
    try (destruct s; reflexivity); try (destruct s'; reflexivity);
    try (destruct s, s'; reflexivity).
  destruct s, s'; try reflexivity;
    rewrite (Z.compare_antisym e e'); destruct (e ?= e')%Z; cbn; try reflexivity;
    change (Pos.compare_cont Eq m' m) with (Pos.compare m' m);
    change (Pos.compare_cont Eq m m') with (Pos.compare m m');
    rewrite (Pos.compare_antisym m m'); destruct (m ?= m')%positive; reflexivity.
Qed.

(** [a <= b] excludes [b < a]. *)
Lemma leb_not_gt (a b : float) : (a <=? b) = true -> (b <? a) = false.
Proof.
  rewrite FloatAxioms.leb_spec, FloatAxioms.ltb_spec. unfold SFleb, SFltb.
  rewrite (SFcompare_antisym (Prim2SF a) (Prim2SF b)).
  destruct (SFcompare (Prim2SF a) (Prim2SF b)) as [[]|]; cbn; congruence.
Qed.

(** On numbers the order is total. *)
Lemma not_lt_leb (a b : float) :
  a <> nan -> b <> nan -> (a <? b) = false -> (b <=? a) = true.
Proof.
  intros Ha Hb. rewrite FloatAxioms.leb_spec, FloatAxioms.ltb_spec.
  unfold SFleb, SFltb.
  rewrite (SFcompare_antisym (Prim2SF a) (Prim2SF b)).
  destruct (SFcompare (Prim2SF a) (Prim2SF b)) as [[]|] eqn:E; cbn; try congruence.
  intros _. exfalso.
  destruct (Prim2SF a) as [s|s| |s m e] eqn:Ea,
           (Prim2SF b) as [s'|s'| |s' m' e'] eqn:Eb;
    cbn in E; try discriminate;
    first [ apply Ha, Prim2SF_nan_inv, Ea | apply Hb, Prim2SF_nan_inv, Eb ].
Qed.

Lemma is_nan_true (a : float) : is_nan a = true <-> a = nan.
Proof.
  split.
  - unfold is_nan. rewrite FloatAxioms.eqb_spec. unfold SFeqb. intros H.
    apply Prim2SF_nan_inv.
    destruct (Prim2SF a) as [s|s| |s m e]; cbn in H;
      try reflexivity; try discriminate.
    + destruct s; discriminate.
    + rewrite Z.compare_refl in H.
      change (Pos.compare_cont Eq m m) with (Pos.compare m m) in H.
      rewrite Pos.compare_refl in H. destruct s; discriminate.
  - intros ->. reflexivity.
Qed.

Lemma is_nan_false (a : float) : a <> nan -> is_nan a = false.
Proof.
  intros H. destruct (is_nan a) eqn:E; [|reflexivity].
  apply is_nan_true in E. contradiction.
Qed.

(** NaN compares false with everything. *)
Lemma nan_ltb_l (a : float) : (nan <? a) = false.
Proof. rewrite FloatAxioms.ltb_spec. reflexivity. Qed.

Lemma nan_ltb_r (a : float) : (a <? nan) = false.
Proof.
  rewrite FloatAxioms.ltb_spec. unfold SFltb.
  destruct (Prim2SF a) as [s|s| |s m e]; reflexivity.
Qed.

Lemma not_between_nan (lo hi : float) : ~ F.between lo hi nan.
Proof.
  intros [H _]. rewrite FloatAxioms.leb_spec in H. unfold SFleb in H.
  destruct (Prim2SF lo) as [s|s| |s m e]; discriminate.
Qed.

(** [np.clip] hands NaN through and otherwise lands in [[-1, 1]]. *)
Lemma clip_nan (lo hi : float) : np.clip nan lo hi = nan.
Proof. reflexivity. Qed.

Lemma clip_unit_range (a : float) : a <> nan -> F.between (-1) 1 (np.clip a (-1) 1).
Proof.
  intros Ha. unfold np.clip, np.maximum, np.minimum, F.between.
  rewrite (is_nan_false a Ha).
  destruct (a <? -1) eqn:E1.
  - split; reflexivity.
  - rewrite (is_nan_false a Ha). destruct (1 <? a) eqn:E2.
    + split; reflexivity.
    + split.
      * apply not_lt_leb; [exact Ha | discriminate | exact E1].
      * apply not_lt_leb; [discriminate | exact Ha | exact E2].
Qed.

Lemma clip_unit_nan (a : float) : np.clip a (-1) 1 = nan <-> a = nan.
Proof.
  split; [|intros ->; reflexivity].
  intros H. destruct (is_nan a) eqn:E; [apply is_nan_true, E|].
  exfalso. apply (not_between_nan (-1) 1). rewrite <- H.
  apply clip_unit_range. intros ->. discriminate.
Qed.

Lemma SFcompare_Lt_trans (a b c : spec_float) :
  SFcompare a b = Some Lt -> SFcompare b c = Some Lt -> SFcompare a c = Some Lt.
Proof.
  destruct a as [sa|sa| |sa ma ea], b as [sb|sb| |sb mb eb], c as [sc|sc| |sc mc ec];
    try destruct sa; try destruct sb; try destruct sc; cbn;
    try congruence; try discriminate;
    change (Pos.compare_cont Eq) with Pos.compare;
    destruct (Z.compare_spec ea eb), (Z.compare_spec eb ec), (Z.compare_spec ea ec);
    subst; cbn; try congruence; try lia;
    destruct (Pos.compare_spec ma mb), (Pos.compare_spec mb mc), (Pos.compare_spec ma mc);
    subst; cbn; try congruence; try lia.
Qed.

(** [<] on binary64 is transitive and asymmetric. *)
Lemma ltb_trans (a b c : float) :
  (a <? b) = true -> (b <? c) = true -> (a <? c) = true.
Proof.
  rewrite !FloatAxioms.ltb_spec. unfold SFltb.
  destruct (SFcompare (Prim2SF a) (Prim2SF b)) as [[]|] eqn:E1; try discriminate.
  destruct (SFcompare (Prim2SF b) (Prim2SF c)) as [[]|] eqn:E2; try discriminate.
  rewrite (SFcompare_Lt_trans _ _ _ E1 E2). reflexivity.
Qed.

Lemma ltb_asym (a b : float) : (a <? b) = true -> (b <? a) = false.
Proof.
  rewrite !FloatAxioms.ltb_spec. unfold SFltb.
  rewrite (SFcompare_antisym (Prim2SF a) (Prim2SF b)).
  destruct (SFcompare (Prim2SF a) (Prim2SF b)) as [[]|]; cbn; congruence.
Qed.

(** A value below [lo] is not above a larger [hi]. *)
Lemma ltb_gap (a lo hi : float) :
  (lo <? hi) = true -> (a <? lo) = true -> (hi <? a) = false.
Proof. intros Hlh Ha. apply ltb_asym. exact (ltb_trans _ _ _ Ha Hlh). Qed.

(** A fused multiply-add with a zero or NaN factor and a zero or NaN
    addend is a zero or NaN. *)
Lemma fma_zn_r (a b c : float) :
  F.is_zero_or_nan b -> F.is_zero_or_nan c -> F.is_zero_or_nan (F.fma a b c).
Proof.
  intros Hb Hc.
  assert (E : F.fma a b c = a * b + c).
  { unfold F.is_zero_or_nan in Hb. unfold F.fma.
    destruct (Prim2SF a) as [s|s| |s m e], (Prim2SF b) as [s'|s'| |s' m' e'];
      try reflexivity; destruct Hb. }
  rewrite E. apply add_zn; [apply mul_zn_r, Hb | exact Hc].
Qed.

Lemma fma_zn_l (a b c : float) :
  F.is_zero_or_nan a -> F.is_zero_or_nan c -> F.is_zero_or_nan (F.fma a b c).
Proof.
  intros Ha Hc.
  assert (E : F.fma a b c = a * b + c).
  { unfold F.is_zero_or_nan in Ha. unfold F.fma.
    destruct (Prim2SF a) as [s|s| |s m e]; try reflexivity; destruct Ha. }
  rewrite E. apply add_zn; [apply mul_zn_l, Ha | exact Hc].
Qed.

Lemma zero_zn : F.is_zero_or_nan 0.
Proof. exact I. Qed.

Lemma SFmul_comm (a b : spec_float) : SF64mul a b = SF64mul b a.
Proof.
  unfold SF64mul, SFmul.
  destruct a as [sa|sa| |sa ma ea], b as [sb|sb| |sb mb eb];
    rewrite ?(xorb_comm sa sb), ?(Pos.mul_comm ma mb), ?(Z.add_comm ea eb); reflexivity.
Qed.

(** Binary64 multiplication is commutative. *)
Lemma mul_comm (a b : float) : a * b = b * a.
Proof. apply Prim2SF_inj. rewrite !FloatAxioms.mul_spec. apply SFmul_comm. Qed.

(** So is the product inside a fused multiply-add. *)
Lemma fma_comm (a b c : float) : F.fma a b c = F.fma b a c.
Proof.
  unfold F.fma. rewrite (mul_comm a b).
  destruct (Prim2SF a) as [sa|sa| |sa ma ea], (Prim2SF b) as [sb|sb| |sb mb eb];
    try reflexivity.
  rewrite (xorb_comm sa sb), (Pos.mul_comm ma mb), (Z.add_comm ea eb). reflexivity.
Qed.

(** Rounding a non-negative mantissa never gives NaN. *)
Lemma shr_1_nonneg (mrs : shr_record) : (0 <= shr_m mrs)%Z -> (0 <= shr_m (shr_1 mrs))%Z.
Proof.
  destruct mrs as [m r s]. cbn [shr_m]. intros H.
  destruct m as [|[p|p|]|p]; cbn; lia.
Qed.

Lemma iter_pos_shr_1_nonneg (p : positive) (mrs : shr_record) :
  (0 <= shr_m mrs)%Z -> (0 <= shr_m (SpecFloat.iter_pos shr_1 p mrs))%Z.
Proof.
  revert mrs. induction p as [p IH|p IH|]; intros mrs H; cbn [SpecFloat.iter_pos].
  - apply IH, IH, shr_1_nonneg, H.
  - apply IH, IH, H.
  - apply shr_1_nonneg, H.
Qed.

Lemma shr_fexp_nonneg (m e : Z) (l : location) :
  (0 <= m)%Z -> (0 <= shr_m (shr_fexp prec emax m e l).1)%Z.
Proof.
  intros H. unfold shr_fexp, shr.
  assert (H0 : (0 <= shr_m (shr_record_of_loc m l))%Z)
    by (destruct l as [|[]]; exact H).
  destruct (fexp prec emax (Zdigits2 m + e) - e)%Z; cbn [fst]; try exact H0.
  apply iter_pos_shr_1_nonneg, H0.
Qed.

Lemma round_nearest_even_nonneg (m : Z) (l : location) :
  (0 <= m)%Z -> (0 <= round_nearest_even m l)%Z.
Proof.
  intros H. unfold round_nearest_even.
  destruct l as [|[]]; try destruct (Z.even m); lia.
Qed.

Lemma binary_round_aux_not_nan (sx : bool) (mx ex : Z) (lx : location) :
  (0 <= mx)%Z -> binary_round_aux prec emax sx mx ex lx <> S754_nan.
Proof.
  intros H. unfold binary_round_aux.
  pose proof (shr_fexp_nonneg mx ex lx H) as H1.
  destruct (shr_fexp prec emax mx ex lx) as [mrs' e']. cbn [fst] in H1.
  pose proof (shr_fexp_nonneg _ e' loc_Exact
                (round_nearest_even_nonneg _ (loc_of_shr_record mrs') H1)) as H2.
  destruct (shr_fexp prec emax _ e' loc_Exact) as [mrs'' e'']. cbn [fst] in H2.
  destruct (shr_m mrs'') as [|m|m]; try discriminate; [|lia].
  destruct (e'' <=? emax - prec)%Z; discriminate.
Qed.

Lemma SFdiv_finite_not_nan (sx sy : bool) (mx my : positive) (ex ey : Z) :
  SF64div (S754_finite sx mx ex) (S754_finite sy my ey) <> S754_nan.
Proof.
  unfold SF64div, SFdiv.
  destruct (SFdiv_core_binary prec emax (Z.pos mx) ex (Z.pos my) ey) as [[mz ez] lz] eqn:E.
  apply binary_round_aux_not_nan.
  unfold SFdiv_core_binary in E.
  set (s := (ex - ey - _)%Z) in E.
  set (m' := match s with Z.pos _ => Z.shiftl (Z.pos mx) s | 0%Z => Z.pos mx | Z.neg _ => 0%Z end) in E.
  assert (Hm : (0 <= m')%Z).
  { unfold m'. destruct s; try lia. apply Z.shiftl_nonneg. lia. }
  pose proof (Z_div_mod m' (Z.pos my) eq_refl) as Hd.
  destruct (Z.div_eucl m' (Z.pos my)) as [q r]. injection E as <- _ _.
  destruct Hd as [Hq Hr]. nia.
Qed.

(** The binary64 quotient is NaN exactly for a NaN operand, [0/0] and
    [inf/inf]. *)
Lemma div_nan_iff (a b : float) :
  a / b = nan <->
  a = nan \/ b = nan \/ (F.is_zero a /\ F.is_zero b) \/ (F.is_infinite a /\ F.is_infinite b).
Proof.
  unfold F.is_zero, F.is_infinite. split.
  - intros H. apply (f_equal Prim2SF) in H. rewrite FloatAxioms.div_spec in H.
    destruct (Prim2SF a) as [s|s| |s m e] eqn:Ea, (Prim2SF b) as [s'|s'| |s' m' e'] eqn:Eb;
      try (left; apply Prim2SF_nan_inv, Ea);
      try (right; left; apply Prim2SF_nan_inv, Eb);
      try (right; right; left; split; exact I);
      try (right; right; right; split; exact I);
      try discriminate H.
    destruct (SFdiv_finite_not_nan s s' m m' e e' H).
  - intros H. apply Prim2SF_nan_inv. rewrite FloatAxioms.div_spec.
    destruct H as [-> | [-> | [[Ha Hb] | [Ha Hb]]]].
    + reflexivity.
    + destruct (Prim2SF a) as [s|s| |s m e]; reflexivity.
    + destruct (Prim2SF a) as [s|s| |s m e], (Prim2SF b) as [s'|s'| |s' m' e'];
        try destruct Ha; try destruct Hb; reflexivity.
    + destruct (Prim2SF a) as [s|s| |s m e], (Prim2SF b) as [s'|s'| |s' m' e'];
        try destruct Ha; try destruct Hb; reflexivity.
Qed.

End FloatFacts.

(** ** Geometry *)

Section Geometry.

Variable arccos : float -> float.

(** IEEE-754 (and C's [acos]): the arc cosine of NaN is NaN. *)
Hypothesis arccos_nan : arccos nan = nan.

Lemma cosine_angle_vertex_on_third (p1 p2 p3 : PoseLandmark) :
  x p3 = x p2 -> y p3 = y p2 -> cosine_angle p1 p2 p3 = nan.
Proof.
  intros Hx Hy. unfold cosine_angle, np.norm, np.dot, np.sub, np.array; cbn [fst snd].
  rewrite Hx, Hy.
  pose proof (FloatFacts.sub_self_zn (x p2)) as Zx.
  pose proof (FloatFacts.sub_self_zn (y p2)) as Zy.
  pose proof FloatFacts.zero_zn as Z0.
  apply FloatFacts.div_zn.
  - repeat (apply FloatFacts.fma_zn_r; try assumption).
  - apply FloatFacts.mul_zn_r, FloatFacts.sqrt_zn.
    repeat (apply FloatFacts.fma_zn_r; try assumption).
Qed.

Lemma cosine_angle_vertex_on_first (p1 p2 p3 : PoseLandmark) :
  x p1 = x p2 -> y p1 = y p2 -> cosine_angle p1 p2 p3 = nan.
Proof.
  intros Hx Hy. unfold cosine_angle, np.norm, np.dot, np.sub, np.array; cbn [fst snd].
  rewrite Hx, Hy.
  pose proof (FloatFacts.sub_self_zn (x p2)) as Zx.
  pose proof (FloatFacts.sub_self_zn (y p2)) as Zy.
  pose proof FloatFacts.zero_zn as Z0.
  apply FloatFacts.div_zn.
  - repeat (apply FloatFacts.fma_zn_l; try assumption).
  - apply FloatFacts.mul_zn_l, FloatFacts.sqrt_zn.
    repeat (apply FloatFacts.fma_zn_l; try assumption).
Qed.

Lemma calculate_angle_of_nan_cosine (p1 p2 p3 : PoseLandmark) :
  cosine_angle p1 p2 p3 = nan -> calculate_angle arccos p1 p2 p3 = nan.
Proof.
  intros H. unfold calculate_angle. rewrite H, FloatFacts.clip_nan, arccos_nan.
  reflexivity.
Qed.

Lemma calculate_angle_same_point (p1 p2 : PoseLandmark) :
  calculate_angle arccos p1 p2 p2 = nan.
Proof.
  apply calculate_angle_of_nan_cosine, cosine_angle_vertex_on_third; reflexivity.
Qed.

End Geometry.

(** ** The posture analyzers *)

Section Analyzers.

Variable arccos : float -> float.

Lemma all_visible_cons (landmarks : gmap string PoseLandmark) (lm : string) (l : list string) :
  all_visible landmarks (lm :: l) = true <->
  (exists p, landmarks !! lm = Some p /\ (0.5 <? visibility p)%float = true) /\
  all_visible landmarks l = true.
Proof.
  unfold all_visible. cbn [forallb]. rewrite andb_true_iff.
  destruct (landmarks !! lm) as [p|]; split.
  - intros [H1 H2]. split; [exists p; split; [reflexivity | exact H1] | exact H2].
  - intros [(q & Hq & Hv) H2]. injection Hq as ->. split; assumption.
  - intros [H _]. discriminate.
  - intros [(q & Hq & _) _]. discriminate.
Qed.

Lemma all_visible_unusable (landmarks : gmap string PoseLandmark) (lm : string) (l : list string) :
  lm ∈ l -> unusable landmarks lm -> all_visible landmarks l = false.
Proof.
  intros Hin Hun. induction l as [|a l IH]; [inversion Hin|].
  destruct (all_visible landmarks (a :: l)) eqn:E; [|reflexivity].
  apply all_visible_cons in E. destruct E as [(p & Hp & Hv) Hl].
  apply elem_of_cons in Hin. destruct Hin as [->|Hin].
  - destruct Hun as [Hn | (q & Hq & Hle)]; [congruence|].
    rewrite Hp in Hq. injection Hq as <-.
    apply FloatFacts.leb_not_gt in Hle. congruence.
  - rewrite IH in Hl; [discriminate | exact Hin].
Qed.

Lemma analyze_squat_hidden (landmarks : gmap string PoseLandmark) :
  all_visible landmarks squat_required = false ->
  analyze_squat_posture arccos landmarks = Some not_visible.
Proof. intros H. unfold analyze_squat_posture. rewrite H. reflexivity. Qed.

Lemma analyze_pushup_hidden (landmarks : gmap string PoseLandmark) :
  all_visible landmarks pushup_required = false ->
  analyze_pushup_posture arccos landmarks = Some not_visible.
Proof. intros H. unfold analyze_pushup_posture. rewrite H. reflexivity. Qed.

Lemma analyze_squat_visible (landmarks : gmap string PoseLandmark)
    (hip knee ankle shoulder : PoseLandmark) :
  landmarks !! "left_hip" = Some hip ->
  landmarks !! "left_knee" = Some knee ->
  landmarks !! "left_ankle" = Some ankle ->
  landmarks !! "left_shoulder" = Some shoulder ->
  all_visible landmarks squat_required = true ->
  analyze_squat_posture arccos landmarks =
  Some (squat_report (calculate_angle arccos hip knee ankle)
                     (calculate_angle arccos shoulder hip knee)).
Proof.
  intros Hh Hk Ha Hs Hv. unfold analyze_squat_posture, squat_report.
  rewrite Hv, Hh, Hk, Ha, Hs. cbn [negb mbind option_bind].
  destruct (calculate_angle arccos hip knee ankle <? 70)%float;
    [|destruct (160 <? calculate_angle arccos hip knee ankle)%float];
    destruct (calculate_angle arccos shoulder hip knee <? 160)%float; reflexivity.
Qed.

Lemma analyze_pushup_visible (landmarks : gmap string PoseLandmark)
    (shoulder elbow wrist hip : PoseLandmark) :
  landmarks !! "left_shoulder" = Some shoulder ->
  landmarks !! "left_elbow" = Some elbow ->
  landmarks !! "left_wrist" = Some wrist ->
  landmarks !! "left_hip" = Some hip ->
  all_visible landmarks pushup_required = true ->
  analyze_pushup_posture arccos landmarks =
  Some (pushup_report
          (calculate_angle arccos shoulder elbow wrist)
          (calculate_angle arccos shoulder hip
             match landmarks !! "left_knee" with
             | Some knee => knee
             | None => hip
             end)).
Proof.
  intros Hs He Hw Hh Hv. unfold analyze_pushup_posture, pushup_report.
  rewrite Hv, Hs, He, Hw, Hh. cbn [negb mbind option_bind].
  destruct (landmarks !! "left_knee") as [knee|]; cbn [mbind option_bind];
  (destruct (170 <? calculate_angle arccos shoulder elbow wrist)%float;
    [|destruct (calculate_angle arccos shoulder elbow wrist <? 45)%float]);
  match goal with |- context [(?b <? 160)%float] => destruct (b <? 160)%float end;
  reflexivity.
Qed.

End Analyzers.

(** ** The state machines *)

Lemma angle_state_machine_squat (k : float) (self : RepCounter) :
  thresholds self = _get_exercise_thresholds SQUAT ->
  angle_state_machine k self =
  Some match current_phase self with
       | NEUTRAL => if (k <? 110)%float then set_current_phase DOWN self else self
       | DOWN => if (160 <? k)%float
                 then set_rep_count (rep_count self + 1) (set_current_phase UP self)
                 else self
       | UP => if (160 <? k)%float then set_current_phase NEUTRAL self else self
       | EXTENDED => self
       end.
Proof.
  intros H. unfold angle_state_machine. rewrite H.
  destruct (current_phase self); reflexivity.
Qed.

Lemma angle_state_machine_pushup (k : float) (self : RepCounter) :
  thresholds self = _get_exercise_thresholds PUSHUP ->
  angle_state_machine k self =
  Some match current_phase self with
       | NEUTRAL => if (k <? 90)%float then set_current_phase DOWN self else self
       | DOWN => if (160 <? k)%float
                 then set_rep_count (rep_count self + 1) (set_current_phase UP self)
                 else self
       | UP => if (160 <? k)%float then set_current_phase NEUTRAL self else self
       | EXTENDED => self
       end.
Proof.
  intros H. unfold angle_state_machine. rewrite H.
  destruct (current_phase self); reflexivity.
Qed.

Lemma jump_state_machine_jump (d : float) (self : RepCounter) :
  thresholds self = _get_exercise_thresholds JUMP ->
  jump_state_machine d self =
  Some match current_phase self with
       | NEUTRAL => if (0.1 <? d)%float then set_current_phase UP self else self
       | UP => if (d <? -0.05)%float
               then set_rep_count (rep_count self + 1) (set_current_phase DOWN self)
               else self
       | DOWN => if (abs d <? 0.02)%float then set_current_phase NEUTRAL self else self
       | EXTENDED => self
       end.
Proof.
  intros H. unfold jump_state_machine. rewrite H.
  destruct (current_phase self); reflexivity.
Qed.

Ltac step_cases :=
  repeat match goal with
         | |- context [if ?b then _ else _] => destruct b
         end;
  unfold stepped; cbn;
  repeat match goal with
         | |- _ /\ _ => split
         | |- _ <-> _ => split
         end;
  try solve [ reflexivity | congruence | lia | intuition (congruence || lia)
            | left; reflexivity | right; reflexivity
            | left; repeat split; solve [reflexivity | left; assumption | right; assumption | assumption]
            | right; repeat split; solve [reflexivity | assumption] ].

Lemma angle_state_machine_stepped (k : float) (self self' : RepCounter) :
  wf self ->
  exercise_type self = SQUAT \/ exercise_type self = PUSHUP ->
  angle_state_machine k self = Some self' ->
  stepped self self'.
Proof.
  intros (Ht & _ & Hp & _) Hk.
  destruct self as [t ct n p h th b]; cbn in *.
  destruct Hk as [-> | ->]; cbn in Ht; subst th.
  - rewrite angle_state_machine_squat by reflexivity. cbn.
    intros [= <-]. destruct p; try congruence; step_cases.
  - rewrite angle_state_machine_pushup by reflexivity. cbn.
    intros [= <-]. destruct p; try congruence; step_cases.
Qed.

Lemma jump_state_machine_stepped (d : float) (self self' : RepCounter) :
  wf self ->
  exercise_type self = JUMP ->
  jump_state_machine d self = Some self' ->
  stepped self self'.
Proof.
  intros (Ht & _ & Hp & _) Hk.
  destruct self as [t ct n p h th b]; cbn in *. subst t. cbn in Ht; subst th.
  rewrite jump_state_machine_jump by reflexivity. cbn.
  intros [= <-]. destruct p; try congruence; step_cases.
Qed.

Lemma stepped_refl (self : RepCounter) : wf self -> stepped self self.
Proof.
  intros (_ & _ & Hp & _). unfold stepped.
  repeat split; try reflexivity; try assumption; try (left; reflexivity).
  - lia.
  - intros [(_ & H1 & H2) | (_ & H1 & H2)]; congruence.
Qed.

Lemma stepped_wf (self self' : RepCounter) : wf self -> stepped self self' -> wf self'.
Proof.
  intros (Ht & Hh & Hp & Hn) (Et & _ & Eth & Eh & Ep & _ & Hc & _).
  unfold wf. rewrite Et, Eth, Eh. repeat split; try assumption. lia.
Qed.

(** Setting the baseline does not concern the state machine. *)
Lemma stepped_set_baseline_y (b : option float) (self self' : RepCounter) :
  stepped (set_baseline_y b self) self' -> stepped self self'.
Proof. intros H. exact H. Qed.

Lemma wf_set_baseline_y (b : option float) (self : RepCounter) :
  wf self -> wf (set_baseline_y b self).
Proof. intros H. exact H. Qed.

Lemma wf_init (name : string) (ct : float) (self : RepCounter) :
  RepCounter_init name ct = Some self -> wf self.
Proof.
  unfold RepCounter_init. destruct (ExerciseType_of_value name) as [t|]; [|discriminate].
  intros [= <-]. unfold wf; cbn. repeat split; [discriminate | lia].
Qed.

Lemma wf_reset (self : RepCounter) : wf self -> wf (reset self).
Proof.
  intros (Ht & _). unfold reset, wf.
  destruct self as [t ct n p h th [b|]]; cbn in *;
    repeat split; try assumption; try discriminate; lia.
Qed.

(** ** One frame *)

Section Counter.

Variable arccos : float -> float.

Lemma squat_report_knee (k b : float) : squat_report k b !! "knee_angle" = Some (PyFloat k).
Proof. reflexivity. Qed.

Lemma pushup_report_elbow (e b : float) : pushup_report e b !! "elbow_angle" = Some (PyFloat e).
Proof. reflexivity. Qed.

Lemma all_visible_lookup (landmarks : gmap string PoseLandmark) (l : list string) (lm : string) :
  all_visible landmarks l = true -> lm ∈ l ->
  exists p, landmarks !! lm = Some p /\ (0.5 <? visibility p)%float = true.
Proof.
  intros Hv Hin. induction l as [|a l IH]; [inversion Hin|].
  apply all_visible_cons in Hv. destruct Hv as [Ha Hl].
  apply elem_of_cons in Hin. destruct Hin as [->|Hin]; [exact Ha | exact (IH Hl Hin)].
Qed.

(** The squat analyzer always returns: either the gate's report or the
    report of the two angles. *)
Lemma analyze_squat_cases (landmarks : gmap string PoseLandmark) :
  (all_visible landmarks squat_required = false /\
   analyze_squat_posture arccos landmarks = Some not_visible) \/
  (exists hip knee ankle shoulder,
      landmarks !! "left_hip" = Some hip /\
      landmarks !! "left_knee" = Some knee /\
      landmarks !! "left_ankle" = Some ankle /\
      landmarks !! "left_shoulder" = Some shoulder /\
      all_visible landmarks squat_required = true /\
      analyze_squat_posture arccos landmarks =
      Some (squat_report (calculate_angle arccos hip knee ankle)
                         (calculate_angle arccos shoulder hip knee))).
Proof.
  destruct (all_visible landmarks squat_required) eqn:Hv.
  - right.
    destruct (all_visible_lookup _ _ "left_hip" Hv) as (hip & Hh & _); [set_solver|].
    destruct (all_visible_lookup _ _ "left_knee" Hv) as (knee & Hk & _); [set_solver|].
    destruct (all_visible_lookup _ _ "left_ankle" Hv) as (ankle & Ha & _); [set_solver|].
    destruct (all_visible_lookup _ _ "left_shoulder" Hv) as (shoulder & Hs & _); [set_solver|].
    exists hip, knee, ankle, shoulder. repeat split; try assumption.
    apply analyze_squat_visible; assumption.
  - left. split; [reflexivity | apply analyze_squat_hidden, Hv].
Qed.

Lemma analyze_pushup_cases (landmarks : gmap string PoseLandmark) :
  (all_visible landmarks pushup_required = false /\
   analyze_pushup_posture arccos landmarks = Some not_visible) \/
  (exists shoulder elbow wrist hip,
      landmarks !! "left_shoulder" = Some shoulder /\
      landmarks !! "left_elbow" = Some elbow /\
      landmarks !! "left_wrist" = Some wrist /\
      landmarks !! "left_hip" = Some hip /\
      all_visible landmarks pushup_required = true /\
      analyze_pushup_posture arccos landmarks =
      Some (pushup_report
              (calculate_angle arccos shoulder elbow wrist)
              (calculate_angle arccos shoulder hip
                 match landmarks !! "left_knee" with
                 | Some knee => knee
                 | None => hip
                 end))).
Proof.
  destruct (all_visible landmarks pushup_required) eqn:Hv.
  - right.
    destruct (all_visible_lookup _ _ "left_shoulder" Hv) as (shoulder & Hs & _); [set_solver|].
    destruct (all_visible_lookup _ _ "left_elbow" Hv) as (elbow & He & _); [set_solver|].
    destruct (all_visible_lookup _ _ "left_wrist" Hv) as (wrist & Hw & _); [set_solver|].
    destruct (all_visible_lookup _ _ "left_hip" Hv) as (hip & Hh & _); [set_solver|].
    exists shoulder, elbow, wrist, hip. repeat split; try assumption.
    apply analyze_pushup_visible; assumption.
  - left. split; [reflexivity | apply analyze_pushup_hidden, Hv].
Qed.

(** [_count_squats] on a frame that passes the gate: the state machine runs
    on the knee angle. *)
Lemma count_squats_visible (landmarks : gmap string PoseLandmark) (self : RepCounter)
    (k b : float) :
  analyze_squat_posture arccos landmarks = Some (squat_report k b) ->
  _count_squats arccos landmarks self =
  (fun self' => finish (squat_report k b) self') <$> angle_state_machine k self.
Proof.
  intros H. unfold _count_squats. rewrite H. cbn [mbind option_bind].
  rewrite squat_report_knee. cbn [as_float mbind option_bind].
  destruct (angle_state_machine k self); reflexivity.
Qed.

Lemma count_squats_hidden (landmarks : gmap string PoseLandmark) (self : RepCounter) :
  analyze_squat_posture arccos landmarks = Some not_visible ->
  _count_squats arccos landmarks self = Some (unchanged not_visible self).
Proof. intros H. unfold _count_squats. rewrite H. reflexivity. Qed.

Lemma count_pushups_visible (landmarks : gmap string PoseLandmark) (self : RepCounter)
    (e b : float) :
  analyze_pushup_posture arccos landmarks = Some (pushup_report e b) ->
  _count_pushups arccos landmarks self =
  (fun self' => finish (pushup_report e b) self') <$> angle_state_machine e self.
Proof.
  intros H. unfold _count_pushups. rewrite H. cbn [mbind option_bind].
  rewrite pushup_report_elbow. cbn [as_float mbind option_bind].
  destruct (angle_state_machine e self); reflexivity.
Qed.

Lemma count_pushups_hidden (landmarks : gmap string PoseLandmark) (self : RepCounter) :
  analyze_pushup_posture arccos landmarks = Some not_visible ->
  _count_pushups arccos landmarks self = Some (unchanged not_visible self).
Proof. intros H. unfold _count_pushups. rewrite H. reflexivity. Qed.

End Counter.

Lemma count_jumps_missing (landmarks : gmap string PoseLandmark) (self : RepCounter) :
  landmarks !! "left_ankle" = None \/ landmarks !! "right_ankle" = None ->
  _count_jumps landmarks self = Some (unchanged jump_analysis self).
Proof.
  unfold _count_jumps. intros [H | H]; rewrite H; [reflexivity|].
  destruct (landmarks !! "left_ankle"); reflexivity.
Qed.

Lemma count_jumps_present (landmarks : gmap string PoseLandmark) (self : RepCounter)
    (left_ankle right_ankle : PoseLandmark) :
  landmarks !! "left_ankle" = Some left_ankle ->
  landmarks !! "right_ankle" = Some right_ankle ->
  let avg_ankle_y := ((y left_ankle + y right_ankle) / 2)%float in
  let baseline := match baseline_y self with Some b => b | None => avg_ankle_y end in
  let displacement := (baseline - avg_ankle_y)%float in
  _count_jumps landmarks self =
  (fun self' : RepCounter =>
     (self', (rep_count self', phase_value (current_phase self'),
              <[ "displacement" := PyFloat displacement ]>
                (<[ "phase" := PyStr (phase_value (current_phase self')) ]>
                   (<[ "rep_count" := PyInt (rep_count self') ]> jump_analysis)))))
  <$> jump_state_machine displacement (set_baseline_y (Some baseline) self).
Proof.
  intros Hl Hr. cbn zeta. unfold _count_jumps. rewrite Hl, Hr.
  destruct self as [t ct n p h th [b|]]; unfold set_baseline_y;
    cbn [baseline_y exercise_type confidence_threshold rep_count current_phase
         phase_history thresholds mbind option_bind];
    match goal with
    | |- context [jump_state_machine ?d ?s] => destruct (jump_state_machine d s)
    end; reflexivity.
Qed.

Section Update.

Variable arccos : float -> float.

(** On a counter that satisfies the constructor's invariant, [update]
    returns, reports the new count and phase, and takes at most one step
    of the exercise's cycle; a baseline, once present, is kept. *)
Lemma update_stepped (mp : MPLandmarks) (self : RepCounter) :
  wf self ->
  exists self' analysis,
    update arccos mp self =
    Some (self', (rep_count self', phase_value (current_phase self'), analysis)) /\
    stepped self self' /\
    (forall b, baseline_y self = Some b -> baseline_y self' = Some b).
Proof.
  intros Hwf. unfold update.
  destruct (decide (_mediapipe_to_landmarks mp = ∅)) as [_|_].
  { exists self, ∅. split; [reflexivity | split; [apply stepped_refl, Hwf | tauto]]. }
  set (landmarks := _mediapipe_to_landmarks mp).
  destruct (exercise_type self) eqn:Et.
  - (* squat *)
    destruct (analyze_squat_cases arccos landmarks)
      as [[_ H] | (hip & knee & ankle & shoulder & _ & _ & _ & _ & _ & H)].
    + rewrite (count_squats_hidden _ _ _ H). exists self, not_visible.
      split; [reflexivity | split; [apply stepped_refl, Hwf | tauto]].
    + rewrite (count_squats_visible _ _ _ _ _ H).
      destruct Hwf as (Ht & Hwf'). rewrite Et in Ht.
      rewrite (angle_state_machine_squat _ _ Ht). cbn [fmap option_fmap option_map finish].
      eexists _, _. split; [reflexivity|]. split.
      * eapply angle_state_machine_stepped.
        -- split; [rewrite Et; exact Ht | exact Hwf'].
        -- left. exact Et.
        -- apply angle_state_machine_squat, Ht.
      * intros b Hb. destruct (current_phase self);
          repeat match goal with |- context [if ?c then _ else _] => destruct c end;
          exact Hb.
  - (* push-up *)
    destruct (analyze_pushup_cases arccos landmarks)
      as [[_ H] | (shoulder & elbow & wrist & hip & _ & _ & _ & _ & _ & H)].
    + rewrite (count_pushups_hidden _ _ _ H). exists self, not_visible.
      split; [reflexivity | split; [apply stepped_refl, Hwf | tauto]].
    + rewrite (count_pushups_visible _ _ _ _ _ H).
      destruct Hwf as (Ht & Hwf'). rewrite Et in Ht.
      rewrite (angle_state_machine_pushup _ _ Ht). cbn [fmap option_fmap option_map finish].
      eexists _, _. split; [reflexivity|]. split.
      * eapply angle_state_machine_stepped.
        -- split; [rewrite Et; exact Ht | exact Hwf'].
        -- right. exact Et.
        -- apply angle_state_machine_pushup, Ht.
      * intros b Hb. destruct (current_phase self);
          repeat match goal with |- context [if ?c then _ else _] => destruct c end;
          exact Hb.
  - (* jump *)
    destruct (landmarks !! "left_ankle") as [la|] eqn:Hl;
      [destruct (landmarks !! "right_ankle") as [ra|] eqn:Hr|].
    + rewrite (count_jumps_present _ _ _ _ Hl Hr).
      set (avg := ((y la + y ra) / 2)%float).
      set (base := match baseline_y self with Some b => b | None => avg end).
      assert (Hwf1 : wf (set_baseline_y (Some base) self)) by apply wf_set_baseline_y, Hwf.
      assert (Ht1 : thresholds (set_baseline_y (Some base) self) = _get_exercise_thresholds JUMP).
      { destruct Hwf as (Ht & _). rewrite Et in Ht. exact Ht. }
      rewrite (jump_state_machine_jump _ _ Ht1). cbn [fmap option_fmap option_map].
      eexists _, _. split; [reflexivity|]. split.
      * apply (stepped_set_baseline_y (Some base)).
        eapply jump_state_machine_stepped; [exact Hwf1 | exact Et |].
        apply jump_state_machine_jump, Ht1.
      * intros b Hb. subst base. rewrite Hb.
        destruct (current_phase (set_baseline_y (Some b) self));
          repeat match goal with |- context [if ?c then _ else _] => destruct c end;
          reflexivity.
    + rewrite count_jumps_missing by (right; exact Hr). exists self, jump_analysis.
      split; [reflexivity | split; [apply stepped_refl, Hwf | tauto]].
    + rewrite count_jumps_missing by (left; exact Hl). exists self, jump_analysis.
      split; [reflexivity | split; [apply stepped_refl, Hwf | tauto]].
  - (* pull-up *)
    exists self, ∅. split; [reflexivity | split; [apply stepped_refl, Hwf | tauto]].
Qed.

Lemma update_wf (mp : MPLandmarks) (self self' : RepCounter) (out : Output) :
  wf self -> update arccos mp self = Some (self', out) -> wf self'.
Proof.
  intros Hwf Hu. destruct (update_stepped mp self Hwf) as (s & a & Hs & Hst & _).
  rewrite Hs in Hu. injection Hu as <- _. exact (stepped_wf _ _ Hwf Hst).
Qed.

Lemma reachable_wf (self : RepCounter) : reachable arccos self -> wf self.
Proof.
  induction 1 as [name ct self Hi | self mp self' out _ IH Hu | self _ IH].
  - exact (wf_init _ _ _ Hi).
  - exact (update_wf _ _ _ _ IH Hu).
  - exact (wf_reset _ IH).
Qed.

End Update.

(** ** Squat counting *)

(** A squat update on a frame whose analysis has the knee angle [k] runs
    the state machine on [k]. *)
Lemma update_squat_reading (arccos : float -> float) (self : RepCounter)
    (mp : MPLandmarks) (k : float) :
  wf self ->
  exercise_type self = SQUAT ->
  knee_reading arccos mp = Some k ->
  exists self' analysis,
    update arccos mp self =
    Some (self', (rep_count self', phase_value (current_phase self'), analysis)) /\
    angle_state_machine k self = Some self' /\
    wf self' /\ exercise_type self' = SQUAT.
Proof.
  intros Hwf Et Hk. pose proof Hwf as (Ht & _). rewrite Et in Ht.
  unfold knee_reading in Hk.
  destruct (analyze_squat_cases arccos (_mediapipe_to_landmarks mp))
    as [[_ H] | (hip & knee & ankle & shoulder & Hh & _ & _ & _ & _ & H)];
    rewrite H in Hk; cbn [mbind option_bind] in Hk; [discriminate Hk|].
  rewrite squat_report_knee in Hk. injection Hk as Hk.
  unfold update. destruct (decide (_mediapipe_to_landmarks mp = ∅)) as [He|_].
  { rewrite He in Hh. discriminate Hh. }
  rewrite Et, (count_squats_visible _ _ _ _ _ H), Hk.
  pose proof (angle_state_machine_squat k self Ht) as Hm.
  rewrite Hm. cbn [fmap option_fmap option_map finish].
  eexists _, _. split; [reflexivity|]. split; [reflexivity|].
  pose proof (angle_state_machine_stepped k self _ Hwf (or_introl Et) Hm) as Hst.
  split; [exact (stepped_wf _ _ Hwf Hst)|].
  destruct Hst as (E & _). rewrite E. exact Et.
Qed.

(** A squat session on frames that all have a knee angle is the state
    machine run on those angles. *)
Lemma run_squat_readings (arccos : float -> float) (frames : list MPLandmarks)
    (angles : list float) (self : RepCounter) :
  wf self ->
  exercise_type self = SQUAT ->
  Forall2 (fun f k => knee_reading arccos f = Some k) frames angles ->
  exists self' outs,
    run arccos frames self = Some (self', outs) /\
    feed_angles angles self = Some self' /\
    length outs = length frames.
Proof.
  intros Hwf Et HF. revert self Hwf Et.
  induction HF as [|f k frames angles Hk HF IH]; intros self Hwf Et.
  - exists self, []. repeat split; reflexivity.
  - destruct (update_squat_reading arccos self f k Hwf Et Hk) as (s1 & a1 & U1 & M1 & W1 & E1).
    destruct (IH s1 W1 E1) as (s2 & outs & Hrun & Hfeed & Hlen).
    exists s2, ((rep_count s1, phase_value (current_phase s1), a1) :: outs).
    cbn [run feed_angles]. rewrite U1, M1. cbn [mbind option_bind].
    rewrite Hrun, Hfeed. cbn [mbind option_bind].
    split; [reflexivity|]. split; [reflexivity|]. cbn. rewrite Hlen. reflexivity.
Qed.

(** C1.  A counter constructed for squat has thresholds 110 and 160.  On
    an update whose analysis yields a knee angle the update returns, and:
    from NEUTRAL an angle below 110 leads to DOWN; from DOWN an angle above
    160 leads to UP and adds exactly one repetition; from UP an angle above
    160 leads to NEUTRAL with the count unchanged; in every other case
    phase and count are unchanged.  The knee angles 170, 100, 60, 170, fed
    to the state machine of a new counter, leave it in phase UP with one
    repetition, through NEUTRAL, DOWN and DOWN.  Four frames whose knee
    angles lie on the same side of the thresholds as these four report the
    counts 0, 0, 0, 1 and leave the counter in that same state.  On any
    frames that have knee angles, a session is the state machine run on
    the angles. *)
Theorem squat_update_transitions (arccos : float -> float) (self : RepCounter)
    (mp : MPLandmarks) (knee_angle : float) :
  reachable arccos self ->
  exercise_type self = SQUAT ->
  knee_reading arccos mp = Some knee_angle ->
  (thresholds self !! "down_threshold" = Some 110%float /\
   thresholds self !! "up_threshold" = Some 160%float) /\
  (exists self' analysis,
     update arccos mp self =
     Some (self', (rep_count self', phase_value (current_phase self'), analysis)) /\
     analysis !! "knee_angle" = Some (PyFloat knee_angle) /\
     (current_phase self = NEUTRAL -> (knee_angle <? 110)%float = true ->
      current_phase self' = DOWN /\ rep_count self' = rep_count self) /\
     (current_phase self = DOWN -> (160 <? knee_angle)%float = true ->
      current_phase self' = UP /\ rep_count self' = rep_count self + 1) /\
     (current_phase self = UP -> (160 <? knee_angle)%float = true ->
      current_phase self' = NEUTRAL /\ rep_count self' = rep_count self) /\
     (~ (current_phase self = NEUTRAL /\ (knee_angle <? 110)%float = true) ->
      ~ (current_phase self = DOWN /\ (160 <? knee_angle)%float = true) ->
      ~ (current_phase self = UP /\ (160 <? knee_angle)%float = true) ->
      current_phase self' = current_phase self /\ rep_count self' = rep_count self)) /\
  (forall (ct : float) (new : RepCounter),
     RepCounter_init "squat" ct = Some new ->
     feed_angles [170; 100; 60; 170]%float new =
     Some (set_rep_count 1 (set_current_phase UP new)) /\
     (feed_angles [170]%float new = Some new /\
      feed_angles [170; 100]%float new = Some (set_current_phase DOWN new) /\
      feed_angles [170; 100; 60]%float new = Some (set_current_phase DOWN new)) /\
     forall (f1 f2 f3 f4 : MPLandmarks) (k1 k2 k3 k4 : float),
       knee_reading arccos f1 = Some k1 ->
       knee_reading arccos f2 = Some k2 ->
       knee_reading arccos f3 = Some k3 ->
       knee_reading arccos f4 = Some k4 ->
       (k1 <? 110)%float = (170 <? 110)%float ->
       (k2 <? 110)%float = (100 <? 110)%float ->
       (160 <? k3)%float = (160 <? 60)%float ->
       (160 <? k4)%float = (160 <? 170)%float ->
       exists outs,
         run arccos [f1; f2; f3; f4] new =
         Some (set_rep_count 1 (set_current_phase UP new), outs) /\
         counts outs = [0; 0; 0; 1] /\
         feed_angles [k1; k2; k3; k4] new = feed_angles [170; 100; 60; 170]%float new) /\
  (forall (frames : list MPLandmarks) (angles : list float),
     Forall2 (fun f k => knee_reading arccos f = Some k) frames angles ->
     exists self' outs,
       run arccos frames self = Some (self', outs) /\
       feed_angles angles self = Some self' /\
       length outs = length frames).
Proof.
  intros Hr Et Hk. apply reachable_wf in Hr. pose proof Hr as (Ht & _).
  rewrite Et in Ht. split; [|split; [|split]].
  - rewrite Ht. split; reflexivity.
  - unfold knee_reading in Hk.
    destruct (analyze_squat_cases arccos (_mediapipe_to_landmarks mp))
      as [[_ H] | (hip & knee & ankle & shoulder & Hh & _ & _ & _ & _ & H)];
      rewrite H in Hk; cbn [mbind option_bind] in Hk; [discriminate Hk|].
    rewrite squat_report_knee in Hk. injection Hk as Hk.
    unfold update. destruct (decide (_mediapipe_to_landmarks mp = ∅)) as [He|_].
    { rewrite He in Hh. discriminate Hh. }
    rewrite Et, (count_squats_visible _ _ _ _ _ H), Hk.
    rewrite (angle_state_machine_squat _ _ Ht). cbn [fmap option_fmap option_map finish].
    eexists _, _. split; [reflexivity|]. split; [reflexivity|].
    destruct self as [t c n p h th b]; cbn in *.
    destruct p, (knee_angle <? 110)%float, (160 <? knee_angle)%float; cbn;
      repeat split; intros; try congruence; try tauto.
  - intros ct new Hnew.
    assert (Enew : new = mkRepCounter SQUAT ct 0 NEUTRAL []
                           (_get_exercise_thresholds SQUAT) None)
      by (injection Hnew as <-; reflexivity).
    pose proof (wf_init _ _ _ Hnew) as W0. subst new.
    split; [reflexivity|]. split; [repeat split; reflexivity|].
    intros f1 f2 f3 f4 k1 k2 k3 k4 H1 H2 H3 H4 C1 C2 C3 C4.
    change ((170 <? 110)%float) with false in C1.
    change ((100 <? 110)%float) with true in C2.
    change ((160 <? 60)%float) with false in C3.
    change ((160 <? 170)%float) with true in C4.
    destruct (update_squat_reading arccos _ f1 _ W0 eq_refl H1)
      as (s1 & a1 & U1 & M1 & W1 & E1).
    rewrite (angle_state_machine_squat k1) in M1 by reflexivity.
    cbn [current_phase] in M1. rewrite C1 in M1. injection M1 as <-.
    destruct (update_squat_reading arccos _ f2 _ W1 E1 H2) as (s2 & a2 & U2 & M2 & W2 & E2).
    rewrite (angle_state_machine_squat k2) in M2 by reflexivity.
    cbn [current_phase] in M2. rewrite C2 in M2. injection M2 as <-.
    destruct (update_squat_reading arccos _ f3 _ W2 E2 H3) as (s3 & a3 & U3 & M3 & W3 & E3).
    rewrite (angle_state_machine_squat k3) in M3 by reflexivity.
    cbn [current_phase set_current_phase] in M3. rewrite C3 in M3. injection M3 as <-.
    destruct (update_squat_reading arccos _ f4 _ W3 E3 H4) as (s4 & a4 & U4 & M4 & W4 & E4).
    rewrite (angle_state_machine_squat k4) in M4 by reflexivity.
    cbn [current_phase set_current_phase] in M4. rewrite C4 in M4. injection M4 as <-.
    cbn [run]. rewrite U1. cbn [mbind option_bind]. rewrite U2. cbn [mbind option_bind].
    rewrite U3. cbn [mbind option_bind]. rewrite U4. cbn [mbind option_bind].
    eexists. split; [reflexivity|]. split; [reflexivity|].
    cbn [feed_angles].
    rewrite (angle_state_machine_squat k1) by reflexivity. cbn [current_phase mbind option_bind].
    rewrite C1. cbn [mbind option_bind].
    rewrite (angle_state_machine_squat k2) by reflexivity. cbn [current_phase mbind option_bind].
    rewrite C2. cbn [mbind option_bind].
    rewrite (angle_state_machine_squat k3) by reflexivity.
    cbn [current_phase set_current_phase mbind option_bind].
    rewrite C3. cbn [mbind option_bind].
    rewrite (angle_state_machine_squat k4) by reflexivity.
    cbn [current_phase set_current_phase mbind option_bind].
    rewrite C4. reflexivity.
  - intros frames angles HF.
    destruct (run_squat_readings arccos frames angles self Hr Et HF)
      as (s & outs & Hrun & Hfeed & Hlen).
    exists s, outs. repeat split; assumption.
Qed.

(** ** Invariants of every counter *)

Section Sessions.

Variable arccos : float -> float.

Lemma run_counts (frames : list MPLandmarks) (self : RepCounter) :
  wf self ->
  exists self' outs,
    run arccos frames self = Some (self', outs) /\
    wf self' /\
    length outs = length frames /\
    nondecreasing (rep_count self :: counts outs) /\
    rep_count self <= rep_count self' <= rep_count self + Z.of_nat (length frames) /\
    (forall b, baseline_y self = Some b -> baseline_y self' = Some b).
Proof.
  revert self. induction frames as [|f frames IH]; intros self Hwf.
  - exists self, []. cbn.
    split; [reflexivity|]. split; [exact Hwf|]. split; [reflexivity|].
    split; [exact I|]. split; [lia | tauto].
  - destruct (update_stepped arccos f self Hwf) as (s1 & a & Hu & Hst & Hb).
    destruct (IH s1 (stepped_wf _ _ Hwf Hst)) as (s2 & outs & Hrun & Hwf2 & Hlen & Hnd & Hle & Hb2).
    exists s2, ((rep_count s1, phase_value (current_phase s1), a) :: outs).
    cbn [run]. rewrite Hu. cbn [mbind option_bind]. rewrite Hrun. cbn [mbind option_bind].
    destruct Hst as (_ & _ & _ & _ & _ & _ & Hc & _).
    split; [reflexivity|]. split; [exact Hwf2|]. split; [cbn; rewrite Hlen; reflexivity|].
    split; [cbn; split; [lia | exact Hnd]|].
    split; [cbn [length]; lia|].
    intros b Hbs. apply Hb2, Hb, Hbs.
Qed.

End Sessions.

(** C3.  For every counter obtained from the constructor by updates and
    resets, of any exercise kind: an update returns; it leaves the count or
    raises it by exactly one, the latter exactly on the DOWN to UP edge for
    squat and push-up and on the UP to DOWN edge for jump; the phase stays
    or moves to the next phase of the exercise's cycle; and over any
    sequence of updates the reported counts never decrease. *)
Theorem update_invariants (arccos : float -> float) (self : RepCounter) (mp : MPLandmarks) :
  reachable arccos self ->
  (exists self' analysis,
     update arccos mp self =
     Some (self', (rep_count self', phase_value (current_phase self'), analysis)) /\
     (rep_count self' = rep_count self \/ rep_count self' = rep_count self + 1) /\
     (rep_count self' = rep_count self + 1 <->
      ((exercise_type self = SQUAT \/ exercise_type self = PUSHUP) /\
       current_phase self = DOWN /\ current_phase self' = UP) \/
      (exercise_type self = JUMP /\
       current_phase self = UP /\ current_phase self' = DOWN)) /\
     (current_phase self' = current_phase self \/
      current_phase self' = cycle_next (exercise_type self) (current_phase self))) /\
  (forall frames : list MPLandmarks,
     exists self' outs,
       run arccos frames self = Some (self', outs) /\
       nondecreasing (rep_count self :: counts outs) /\
       rep_count self <= rep_count self').
Proof.
  intros Hr. apply reachable_wf in Hr. split.
  - destruct (update_stepped arccos mp self Hr) as (s & a & Hu & Hst & _).
    exists s, a. destruct Hst as (_ & _ & _ & _ & _ & Hp & Hc & Hiff).
    repeat split; try assumption; apply Hiff.
  - intros frames.
    destruct (run_counts arccos frames self Hr) as (s & outs & Hrun & _ & _ & Hnd & Hle & _).
    exists s, outs. repeat split; try assumption. lia.
Qed.

Lemma squat_update_transitions_witness :
  let self := mkRepCounter SQUAT 0.7 0 NEUTRAL [] (_get_exercise_thresholds SQUAT) None in
  reachable arccos_step self /\
  knee_reading arccos_step squatting = Some 90%float /\
  knee_reading arccos_step standing = Some 180%float /\
  (exists self' analysis',
     update arccos_step squatting self =
     Some (self', (rep_count self', phase_value (current_phase self'), analysis')) /\
     current_phase self' = DOWN /\ rep_count self' = 0) /\
  (exists outs,
     run arccos_step [standing; squatting; squatting; standing] self =
     Some (set_rep_count 1 (set_current_phase UP self), outs) /\
     counts outs = [0; 0; 0; 1]) /\
  feed_angles [170; 100; 60; 170]%float self =
  Some (set_rep_count 1 (set_current_phase UP self)).
Proof.
  cbn zeta.
  assert (Hr : reachable arccos_step
                 (mkRepCounter SQUAT 0.7 0 NEUTRAL [] (_get_exercise_thresholds SQUAT) None))
    by (apply (reachable_init arccos_step "squat" 0.7%float); reflexivity).
  assert (Ha : knee_reading arccos_step squatting = Some 90%float)
    by (vm_compute; reflexivity).
  assert (Hb : knee_reading arccos_step standing = Some 180%float)
    by (vm_compute; reflexivity).
  split; [exact Hr|]. split; [exact Ha|]. split; [exact Hb|].
  destruct (squat_update_transitions arccos_step _ squatting 90%float Hr eq_refl Ha)
    as (_ & (self' & a' & Hu & _ & Hn & _) & Hex & _).
  destruct (Hex 0.7%float _ eq_refl) as (Hfeed & _ & Hframes).
  split; [|split].
  - exists self', a'. split; [exact Hu|]. apply Hn; reflexivity.
  - destruct (Hframes standing squatting squatting standing _ _ _ _ Hb Ha Ha Hb
                eq_refl eq_refl eq_refl eq_refl) as (outs & Hrun & Hc & _).
    exists outs. split; [exact Hrun | exact Hc].
  - exact Hfeed.
Defined.

Lemma update_invariants_witness :
  let self := mkRepCounter SQUAT 0.7 0 NEUTRAL [] (_get_exercise_thresholds SQUAT) None in
  reachable arccos_step self /\
  exists self' outs,
    run arccos_step [standing; squatting; standing; standing] self = Some (self', outs) /\
    nondecreasing (rep_count self :: counts outs) /\
    rep_count self <= rep_count self'.
Proof.
  cbn zeta.
  assert (Hr : reachable arccos_step
                 (mkRepCounter SQUAT 0.7 0 NEUTRAL [] (_get_exercise_thresholds SQUAT) None))
    by (apply (reachable_init arccos_step "squat" 0.7%float); reflexivity).
  split; [exact Hr|].
  exact (proj2 (update_invariants arccos_step _ standing Hr)
           [standing; squatting; standing; standing]).
Defined.

(** ** Posture analysis *)

Lemma all_visible_intro (landmarks : gmap string PoseLandmark) (l : list string) :
  (forall lm, lm ∈ l ->
     exists p, landmarks !! lm = Some p /\ (0.5 <? visibility p)%float = true) ->
  all_visible landmarks l = true.
Proof.
  induction l as [|a l IH]; intros H; [reflexivity|].
  apply all_visible_cons. split.
  - apply H. left.
  - apply IH. intros lm Hlm. apply H. right. exact Hlm.
Qed.

(** C4.  When a joint of the exercise's required list is absent from the
    landmark set or has visibility at most 0.5, the squat (push-up)
    analyzer returns exactly the score 0 with the single message
    "Pose not clearly visible" and no angle field, and an update of a squat
    (push-up) counter on that landmark set returns the counter as it was,
    with its count and phase. *)
Theorem required_joint_gate (arccos : float -> float)
    (landmarks : gmap string PoseLandmark) (lm : string)
    (mp : MPLandmarks) (self : RepCounter) :
  unusable landmarks lm ->
  (lm ∈ ["left_hip"; "left_knee"; "left_ankle"; "left_shoulder"] ->
   analyze_squat_posture arccos landmarks =
   Some {[ "score" := PyInt 0; "errors" := PyStrList ["Pose not clearly visible"] ]} /\
   (exercise_type self = SQUAT -> _mediapipe_to_landmarks mp = landmarks ->
    exists analysis,
      update arccos mp self =
      Some (self, (rep_count self, phase_value (current_phase self), analysis)) /\
      analysis !! "knee_angle" = None /\ analysis !! "back_angle" = None)) /\
  (lm ∈ ["left_shoulder"; "left_elbow"; "left_wrist"; "left_hip"] ->
   analyze_pushup_posture arccos landmarks =
   Some {[ "score" := PyInt 0; "errors" := PyStrList ["Pose not clearly visible"] ]} /\
   (exercise_type self = PUSHUP -> _mediapipe_to_landmarks mp = landmarks ->
    exists analysis,
      update arccos mp self =
      Some (self, (rep_count self, phase_value (current_phase self), analysis)) /\
      analysis !! "elbow_angle" = None /\ analysis !! "body_angle" = None)).
Proof.
  intros Hun. split; intros Hin.
  - pose proof (all_visible_unusable _ _ squat_required Hin Hun) as Hv.
    pose proof (analyze_squat_hidden arccos _ Hv) as Ha.
    split; [exact Ha|]. intros Et Hmp. unfold update. rewrite Hmp.
    destruct (decide (landmarks = ∅)).
    + exists ∅. repeat split; reflexivity.
    + rewrite Et, (count_squats_hidden _ _ _ Ha). exists not_visible.
      repeat split; reflexivity.
  - pose proof (all_visible_unusable _ _ pushup_required Hin Hun) as Hv.
    pose proof (analyze_pushup_hidden arccos _ Hv) as Ha.
    split; [exact Ha|]. intros Et Hmp. unfold update. rewrite Hmp.
    destruct (decide (landmarks = ∅)).
    + exists ∅. repeat split; reflexivity.
    + rewrite Et, (count_pushups_hidden _ _ _ Ha). exists not_visible.
      repeat split; reflexivity.
Qed.

Lemma required_joint_gate_witness :
  let self := mkRepCounter SQUAT 0.7 3 DOWN [] (_get_exercise_thresholds SQUAT) None in
  unusable (_mediapipe_to_landmarks knee_hidden) "left_knee" /\
  analyze_squat_posture arccos_step (_mediapipe_to_landmarks knee_hidden) =
  Some {[ "score" := PyInt 0; "errors" := PyStrList ["Pose not clearly visible"] ]} /\
  exists analysis,
    update arccos_step knee_hidden self = Some (self, (3, "down", analysis)) /\
    analysis !! "knee_angle" = None /\ analysis !! "back_angle" = None.
Proof.
  cbn zeta.
  assert (Hun : unusable (_mediapipe_to_landmarks knee_hidden) "left_knee").
  { right. exists (mkPoseLandmark 0.5 0.75 0.25). split; vm_compute; reflexivity. }
  split; [exact Hun|].
  assert (Hin : "left_knee" ∈ ["left_hip"; "left_knee"; "left_ankle"; "left_shoulder"])
    by (right; left).
  destruct (required_joint_gate arccos_step _ "left_knee" knee_hidden
              (mkRepCounter SQUAT 0.7 3 DOWN [] (_get_exercise_thresholds SQUAT) None)
              Hun) as [Hs _].
  destruct (Hs Hin) as [Ha Hu]. split; [exact Ha | exact (Hu eq_refl eq_refl)].
Defined.

(** C5.  With the four required joints visible, the squat analysis reports
    the knee angle (hip, knee, ankle) and the back angle (shoulder, hip,
    knee) and the score 100 minus 10 when the knee angle is below 70, else
    minus 15 when it is above 160, and minus 20 when the back angle is
    below 160, the two deductions adding up; the score is the floor at 0 of
    that number, hence never negative, and the messages come in the order
    of the checks. *)
Theorem squat_posture_score (arccos : float -> float)
    (landmarks : gmap string PoseLandmark) (hip knee ankle shoulder : PoseLandmark) :
  landmarks !! "left_hip" = Some hip ->
  landmarks !! "left_knee" = Some knee ->
  landmarks !! "left_ankle" = Some ankle ->
  landmarks !! "left_shoulder" = Some shoulder ->
  (0.5 <? visibility hip)%float = true ->
  (0.5 <? visibility knee)%float = true ->
  (0.5 <? visibility ankle)%float = true ->
  (0.5 <? visibility shoulder)%float = true ->
  let knee_angle := calculate_angle arccos hip knee ankle in
  let back_angle := calculate_angle arccos shoulder hip knee in
  let knee_deduction :=
    if (knee_angle <? 70)%float then 10
    else if (160 <? knee_angle)%float then 15 else 0 in
  let back_deduction := if (back_angle <? 160)%float then 20 else 0 in
  let knee_errors :=
    if (knee_angle <? 70)%float then ["Squat too deep"]
    else if (160 <? knee_angle)%float then ["Squat not deep enough"] else [] in
  let back_errors := if (back_angle <? 160)%float then ["Back bent forward"] else [] in
  let score := 100 - knee_deduction - back_deduction in
  analyze_squat_posture arccos landmarks =
  Some {[ "score" := PyInt score; "errors" := PyStrList (knee_errors ++ back_errors);
          "knee_angle" := PyFloat knee_angle; "back_angle" := PyFloat back_angle ]} /\
  score = Z.max 0 score /\ 0 <= score <= 100.
Proof.
  intros Hh Hk Ha Hs Vh Vk Va Vs. cbn zeta.
  assert (Hv : all_visible landmarks squat_required = true).
  { apply all_visible_intro. intros lm Hlm. unfold squat_required in Hlm.
    repeat (apply elem_of_cons in Hlm; destruct Hlm as [->|Hlm]); eauto.
    inversion Hlm. }
  rewrite (analyze_squat_visible arccos _ _ _ _ _ Hh Hk Ha Hs Hv). unfold squat_report.
  destruct (calculate_angle arccos hip knee ankle <? 70)%float;
    [|destruct (160 <? calculate_angle arccos hip knee ankle)%float];
    destruct (calculate_angle arccos shoulder hip knee <? 160)%float;
    (split; [reflexivity | split; [reflexivity | lia]]).
Qed.

Lemma squat_posture_score_witness :
  analyze_squat_posture arccos_step (_mediapipe_to_landmarks standing) =
  Some {[ "score" := PyInt 85; "errors" := PyStrList ["Squat not deep enough"];
          "knee_angle" := PyFloat 180; "back_angle" := PyFloat 180 ]}.
Proof.
  exact (proj1 (squat_posture_score arccos_step (_mediapipe_to_landmarks standing)
                  (joint 0.5 0.5) (joint 0.5 0.75) (joint 0.5 1) (joint 0.5 0.25)
                  eq_refl eq_refl eq_refl eq_refl eq_refl eq_refl eq_refl eq_refl)).
Defined.

(** The push-up analysis when the knee is absent: the third point of the
    body-line angle is the hip itself, the second ray has length 0 and the
    quotient is [0/0]. *)
Lemma pushup_report_nan_body (e : float) :
  pushup_report e nan =
  {[ "score" := PyInt (100 - (if (170 <? e)%float then 15
                              else if (e <? 45)%float then 10 else 0));
     "errors" := PyStrList (if (170 <? e)%float then ["Lower chest closer to ground"]
                            else if (e <? 45)%float then ["Chest too close to ground"]
                            else []);
     "elbow_angle" := PyFloat e; "body_angle" := PyFloat nan ]}.
Proof.
  unfold pushup_report.
  destruct (170 <? e)%float; [|destruct (e <? 45)%float]; reflexivity.
Qed.

(** The push-up analysis of a landmark set that passes the gate and has no
    [left_knee], for an arc cosine that maps NaN to NaN. *)
Lemma analyze_pushup_no_knee (arccos : float -> float)
    (landmarks : gmap string PoseLandmark) (shoulder elbow wrist hip : PoseLandmark) :
  arccos nan = nan ->
  landmarks !! "left_shoulder" = Some shoulder ->
  landmarks !! "left_elbow" = Some elbow ->
  landmarks !! "left_wrist" = Some wrist ->
  landmarks !! "left_hip" = Some hip ->
  all_visible landmarks pushup_required = true ->
  landmarks !! "left_knee" = None ->
  analyze_pushup_posture arccos landmarks =
  Some (pushup_report (calculate_angle arccos shoulder elbow wrist) nan).
Proof.
  intros Hnan Hs He Hw Hh Hv Hk.
  rewrite (analyze_pushup_visible arccos _ _ _ _ _ Hs He Hw Hh Hv), Hk.
  rewrite (calculate_angle_same_point arccos Hnan). reflexivity.
Qed.

(** C6, as the code has it.  With the four required push-up joints visible
    and [left_knee] absent, the analyzer raises nothing and takes the hip
    as third point of the body-line angle; that angle is NaN (the quotient
    is [0/0]), not 0, the comparison with 160 is false, and so the
    20-point "Keep body in straight line" deduction is not applied: score
    and messages are those of the elbow check alone. *)
Theorem pushup_without_knee (arccos : float -> float)
    (landmarks : gmap string PoseLandmark) (shoulder elbow wrist hip : PoseLandmark) :
  arccos nan = nan ->
  landmarks !! "left_shoulder" = Some shoulder ->
  landmarks !! "left_elbow" = Some elbow ->
  landmarks !! "left_wrist" = Some wrist ->
  landmarks !! "left_hip" = Some hip ->
  (0.5 <? visibility shoulder)%float = true ->
  (0.5 <? visibility elbow)%float = true ->
  (0.5 <? visibility wrist)%float = true ->
  (0.5 <? visibility hip)%float = true ->
  landmarks !! "left_knee" = None ->
  let elbow_angle := calculate_angle arccos shoulder elbow wrist in
  let elbow_deduction :=
    if (170 <? elbow_angle)%float then 15
    else if (elbow_angle <? 45)%float then 10 else 0 in
  let elbow_errors :=
    if (170 <? elbow_angle)%float then ["Lower chest closer to ground"]
    else if (elbow_angle <? 45)%float then ["Chest too close to ground"] else [] in
  calculate_angle arccos shoulder hip hip = nan /\
  (nan <? 160)%float = false /\
  analyze_pushup_posture arccos landmarks =
  Some {[ "score" := PyInt (100 - elbow_deduction); "errors" := PyStrList elbow_errors;
          "elbow_angle" := PyFloat elbow_angle; "body_angle" := PyFloat nan ]} /\
  "Keep body in straight line" ∉ elbow_errors.
Proof.
  intros Hnan Hs He Hw Hh Vs Ve Vw Vh Hk. cbn zeta.
  assert (Hv : all_visible landmarks pushup_required = true).
  { apply all_visible_intro. intros lm Hlm. unfold pushup_required in Hlm.
    repeat (apply elem_of_cons in Hlm; destruct Hlm as [->|Hlm]); eauto.
    inversion Hlm. }
  split; [apply calculate_angle_same_point, Hnan|]. split; [reflexivity|]. split.
  - rewrite (analyze_pushup_no_knee arccos _ _ _ _ _ Hnan Hs He Hw Hh Hv Hk). f_equal.
    apply pushup_report_nan_body.
  - destruct (170 <? calculate_angle arccos shoulder elbow wrist)%float;
      [|destruct (calculate_angle arccos shoulder elbow wrist <? 45)%float];
      intros Hin;
      repeat (apply elem_of_cons in Hin; destruct Hin as [Hin|Hin]; [discriminate Hin|]);
      inversion Hin.
Qed.

Lemma pushup_without_knee_witness :
  _mediapipe_to_landmarks plank_no_knee !! "left_knee" = None /\
  analyze_pushup_posture arccos_step (_mediapipe_to_landmarks plank_no_knee) =
  Some {[ "score" := PyInt 85; "errors" := PyStrList ["Lower chest closer to ground"];
          "elbow_angle" := PyFloat 180; "body_angle" := PyFloat nan ]}.
Proof.
  split; [reflexivity|].
  exact (proj1 (proj2 (proj2
    (pushup_without_knee arccos_step (_mediapipe_to_landmarks plank_no_knee)
       (joint 0.25 0.5) (joint 0.25 0.75) (joint 0.25 1) (joint 0.75 0.5)
       eq_refl eq_refl eq_refl eq_refl eq_refl eq_refl eq_refl eq_refl eq_refl eq_refl)))).
Defined.

(** C6 as stated fails: on the frame [plank_no_knee] (required joints
    visible, no knee) and for every arc cosine that maps NaN to NaN and -1
    to pi, the body angle is NaN and not 0, the score is 85 and not 65, and
    the only message is the elbow's. *)
Lemma pushup_without_knee_not_zero :
  all_visible (_mediapipe_to_landmarks plank_no_knee) pushup_required = true /\
  _mediapipe_to_landmarks plank_no_knee !! "left_knee" = None /\
  forall arccos : float -> float,
    arccos nan = nan -> arccos (-1)%float = F.pi ->
    exists analysis,
      analyze_pushup_posture arccos (_mediapipe_to_landmarks plank_no_knee) = Some analysis /\
      analysis !! "body_angle" = Some (PyFloat nan) /\
      analysis !! "body_angle" <> Some (PyFloat 0) /\
      analysis !! "score" = Some (PyInt 85) /\
      analysis !! "errors" = Some (PyStrList ["Lower chest closer to ground"]).
Proof.
  split; [reflexivity|]. split; [reflexivity|]. intros arccos Hnan Hpi.
  pose proof (analyze_pushup_no_knee arccos (_mediapipe_to_landmarks plank_no_knee)
       (joint 0.25 0.5) (joint 0.25 0.75) (joint 0.25 1) (joint 0.75 0.5)
       Hnan eq_refl eq_refl eq_refl eq_refl eq_refl eq_refl) as Ha.
  assert (He : calculate_angle arccos (joint 0.25 0.5) (joint 0.25 0.75) (joint 0.25 1)
               = 180%float).
  { unfold calculate_angle.
    change (np.clip (cosine_angle (joint 0.25 0.5) (joint 0.25 0.75) (joint 0.25 1)) (-1) 1)
      with (-1)%float.
    rewrite Hpi. reflexivity. }
  rewrite He in Ha. eexists. split; [exact Ha|].
  repeat split; try reflexivity. discriminate.
Qed.

(** ** The angle *)

Lemma arccos_step_nan : arccos_step nan = nan.
Proof. reflexivity. Qed.

Lemma arccos_step_range (c : float) :
  F.between (-1) 1 c -> F.between 0 180 (np.degrees (arccos_step c)).
Proof.
  intros Hc. unfold arccos_step. destruct (is_nan c) eqn:E.
  - apply FloatFacts.is_nan_true in E. subst c.
    destruct (FloatFacts.not_between_nan _ _ Hc).
  - destruct (c <? -0.5)%float; [|destruct (c <=? 0.5)%float];
      split; reflexivity.
Qed.

(** C8, as the code has it.  [calculate_angle] has no guard and never
    raises.  When the vertex coincides with one of the other two points the
    quotient is [0/0] and the result is NaN: not 0, and no error is
    signalled.  Whenever the quotient is a number, [np.clip] puts it in
    [[-1, 1]] before the arc cosine, and the result lies in [[0, 180]]
    (given that NumPy's [degrees(arccos(c))] does for such [c]); whenever it
    is NaN, so is the result.  So the result lies in [[0, 180]] exactly
    when the quotient is a number, and the quotient is NaN exactly when the
    dot product or the product of the norms is NaN, or both are zero, or
    both are infinite. *)
Theorem calculate_angle_policy (arccos : float -> float) (p1 p2 p3 : PoseLandmark) :
  arccos nan = nan ->
  (forall c, F.between (-1) 1 c -> F.between 0 180 (np.degrees (arccos c))) ->
  ((x p1 = x p2 /\ y p1 = y p2) \/ (x p3 = x p2 /\ y p3 = y p2) ->
   calculate_angle arccos p1 p2 p3 = nan) /\
  (cosine_angle p1 p2 p3 = nan -> calculate_angle arccos p1 p2 p3 = nan) /\
  (cosine_angle p1 p2 p3 <> nan ->
   F.between (-1) 1 (np.clip (cosine_angle p1 p2 p3) (-1) 1) /\
   F.between 0 180 (calculate_angle arccos p1 p2 p3)) /\
  (F.between 0 180 (calculate_angle arccos p1 p2 p3) <-> cosine_angle p1 p2 p3 <> nan) /\
  (calculate_angle arccos p1 p2 p3 = nan <-> cosine_angle p1 p2 p3 = nan) /\
  (let ba := np.sub (np.array p1) (np.array p2) in
   let bc := np.sub (np.array p3) (np.array p2) in
   let d := np.dot ba bc in
   let n := (np.norm ba * np.norm bc)%float in
   cosine_angle p1 p2 p3 = nan <->
   d = nan \/ n = nan \/
   (F.is_zero d /\ F.is_zero n) \/ (F.is_infinite d /\ F.is_infinite n)).
Proof.
  intros Hnan Hrange.
  assert (Hin : cosine_angle p1 p2 p3 <> nan ->
                F.between (-1) 1 (np.clip (cosine_angle p1 p2 p3) (-1) 1) /\
                F.between 0 180 (calculate_angle arccos p1 p2 p3)).
  { intros Hc. pose proof (FloatFacts.clip_unit_range _ Hc) as Hclip.
    split; [exact Hclip|]. unfold calculate_angle. apply Hrange, Hclip. }
  assert (Hout : cosine_angle p1 p2 p3 = nan -> calculate_angle arccos p1 p2 p3 = nan)
    by (apply calculate_angle_of_nan_cosine, Hnan).
  split; [|split; [exact Hout|split; [exact Hin|split; [|split]]]].
  - intros [[Hx Hy] | [Hx Hy]]; apply Hout.
    + apply cosine_angle_vertex_on_first; assumption.
    + apply cosine_angle_vertex_on_third; assumption.
  - split; [|intros Hc; apply Hin, Hc].
    intros Hb Hc. rewrite (Hout Hc) in Hb. exact (FloatFacts.not_between_nan _ _ Hb).
  - split; [|exact Hout]. intros Ha.
    destruct (is_nan (cosine_angle p1 p2 p3)) eqn:E; [apply FloatFacts.is_nan_true, E|].
    exfalso. apply (FloatFacts.not_between_nan 0 180). rewrite <- Ha. apply Hin.
    intros Hc. rewrite Hc in E. discriminate E.
  - cbv zeta. unfold cosine_angle. apply FloatFacts.div_nan_iff.
Qed.

Lemma calculate_angle_policy_witness :
  cosine_angle (joint 1 0) (joint 0 0) (joint 0 1) <> nan /\
  calculate_angle arccos_step (joint 1 0) (joint 0 0) (joint 0 1) = 90%float /\
  F.between 0 180 (calculate_angle arccos_step (joint 1 0) (joint 0 0) (joint 0 1)) /\
  calculate_angle arccos_step (joint 1 0) (joint 1 0) (joint 0 1) = nan.
Proof.
  assert (Hc : cosine_angle (joint 1 0) (joint 0 0) (joint 0 1) <> nan)
    by (vm_compute; discriminate).
  split; [exact Hc|]. split; [reflexivity|]. split.
  - exact (proj2 (proj1 (proj2 (proj2
      (calculate_angle_policy arccos_step (joint 1 0) (joint 0 0) (joint 0 1)
         arccos_step_nan arccos_step_range))) Hc)).
  - exact (proj1
      (calculate_angle_policy arccos_step (joint 1 0) (joint 1 0) (joint 0 1)
         arccos_step_nan arccos_step_range) (or_introl (conj eq_refl eq_refl))).
Defined.

(** C8 as stated fails: [tiny_a], [tiny_b], [tiny_c] are three distinct
    points, the vertex [tiny_b] coincides with neither of the others, yet
    both squared lengths underflow to 0, the quotient is [0/0], and the
    result is NaN, which is not within [[0, 180]]. *)
Lemma tiny_triangle_angle_is_nan :
  (x tiny_a <> x tiny_b /\ y tiny_c <> y tiny_b) /\
  cosine_angle tiny_a tiny_b tiny_c = nan /\
  forall arccos : float -> float,
    arccos nan = nan ->
    calculate_angle arccos tiny_a tiny_b tiny_c = nan /\
    ~ F.between 0 180 (calculate_angle arccos tiny_a tiny_b tiny_c).
Proof.
  split; [split; vm_compute; discriminate|]. split; [reflexivity|].
  intros arccos Hnan.
  assert (H : calculate_angle arccos tiny_a tiny_b tiny_c = nan)
    by (apply calculate_angle_of_nan_cosine; [exact Hnan | reflexivity]).
  split; [exact H|]. rewrite H. apply FloatFacts.not_between_nan.
Qed.

(** ** The stored confidence threshold *)

Lemma angle_state_machine_ct (ct k : float) (self : RepCounter) :
  angle_state_machine k (set_confidence_threshold ct self) =
  set_confidence_threshold ct <$> angle_state_machine k self.
Proof.
  destruct self as [t c n p h th b]. unfold angle_state_machine; cbn.
  destruct p; try reflexivity;
    match goal with |- context [th !! ?key] => destruct (th !! key) as [v|] end;
    cbn; try reflexivity;
    match goal with |- context [if ?c then _ else _] => destruct c end; reflexivity.
Qed.

Lemma jump_state_machine_ct (ct d : float) (self : RepCounter) :
  jump_state_machine d (set_confidence_threshold ct self) =
  set_confidence_threshold ct <$> jump_state_machine d self.
Proof.
  destruct self as [t c n p h th b]. unfold jump_state_machine; cbn.
  destruct p; try reflexivity;
    try match goal with |- context [th !! ?key] => destruct (th !! key) as [v|] end;
    cbn; try reflexivity;
    match goal with |- context [if ?c then _ else _] => destruct c end; reflexivity.
Qed.

Section Confidence.

Variable arccos : float -> float.

Lemma count_squats_ct (ct : float) (landmarks : gmap string PoseLandmark) (self : RepCounter) :
  _count_squats arccos landmarks (set_confidence_threshold ct self) =
  retag ct <$> _count_squats arccos landmarks self.
Proof.
  unfold _count_squats.
  destruct (analyze_squat_posture arccos landmarks) as [a|]; [|reflexivity].
  cbn [mbind option_bind].
  destruct (a !! "knee_angle") as [v|]; [|reflexivity].
  destruct (as_float v) as [k|]; [|reflexivity]. cbn [mbind option_bind].
  rewrite angle_state_machine_ct.
  destruct (angle_state_machine k self); reflexivity.
Qed.

Lemma count_pushups_ct (ct : float) (landmarks : gmap string PoseLandmark) (self : RepCounter) :
  _count_pushups arccos landmarks (set_confidence_threshold ct self) =
  retag ct <$> _count_pushups arccos landmarks self.
Proof.
  unfold _count_pushups.
  destruct (analyze_pushup_posture arccos landmarks) as [a|]; [|reflexivity].
  cbn [mbind option_bind].
  destruct (a !! "elbow_angle") as [v|]; [|reflexivity].
  destruct (as_float v) as [k|]; [|reflexivity]. cbn [mbind option_bind].
  rewrite angle_state_machine_ct.
  destruct (angle_state_machine k self); reflexivity.
Qed.

Lemma count_jumps_ct (ct : float) (landmarks : gmap string PoseLandmark) (self : RepCounter) :
  _count_jumps landmarks (set_confidence_threshold ct self) =
  retag ct <$> _count_jumps landmarks self.
Proof.
  destruct (landmarks !! "left_ankle") as [la|] eqn:Hl;
    [destruct (landmarks !! "right_ankle") as [ra|] eqn:Hr|].
  - rewrite !(count_jumps_present _ _ _ _ Hl Hr).
    change (baseline_y (set_confidence_threshold ct self)) with (baseline_y self).
    set (base := match baseline_y self with
                 | Some b => b
                 | None => ((y la + y ra) / 2)%float
                 end).
    change (set_baseline_y (Some base) (set_confidence_threshold ct self))
      with (set_confidence_threshold ct (set_baseline_y (Some base) self)).
    rewrite jump_state_machine_ct.
    destruct (jump_state_machine _ (set_baseline_y (Some base) self)); reflexivity.
  - rewrite !count_jumps_missing by (right; exact Hr). reflexivity.
  - rewrite !count_jumps_missing by (left; exact Hl). reflexivity.
Qed.

Lemma update_ct (ct : float) (mp : MPLandmarks) (self : RepCounter) :
  update arccos mp (set_confidence_threshold ct self) = retag ct <$> update arccos mp self.
Proof.
  unfold update. destruct (decide (_mediapipe_to_landmarks mp = ∅)); [reflexivity|].
  change (exercise_type (set_confidence_threshold ct self)) with (exercise_type self).
  destruct (exercise_type self).
  - apply count_squats_ct.
  - apply count_pushups_ct.
  - apply count_jumps_ct.
  - reflexivity.
Qed.

Lemma run_ct (ct : float) (frames : list MPLandmarks) (self : RepCounter) :
  run arccos frames (set_confidence_threshold ct self) =
  (fun r : RepCounter * list Output => (set_confidence_threshold ct r.1, r.2))
    <$> run arccos frames self.
Proof.
  revert self. induction frames as [|f frames IH]; intros self; [reflexivity|].
  cbn [run]. rewrite update_ct.
  destruct (update arccos f self) as [[s1 o1]|]; [|reflexivity].
  cbn [fmap option_fmap option_map mbind option_bind retag fst snd].
  rewrite IH. destruct (run arccos frames s1) as [[s2 o2]|]; reflexivity.
Qed.

End Confidence.

(** C9.  Two counters constructed for the same exercise kind with
    different confidence thresholds, driven through the same frames, both
    return on every frame, report the same count, phase and analysis on
    every frame, and end in states that agree in every attribute but the
    stored [confidence_threshold] itself. *)
Theorem confidence_threshold_inert (arccos : float -> float) (name : string)
    (ct1 ct2 : float) (a b : RepCounter) (frames : list MPLandmarks) :
  RepCounter_init name ct1 = Some a ->
  RepCounter_init name ct2 = Some b ->
  exists a' b' outs,
    run arccos frames a = Some (a', outs) /\
    run arccos frames b = Some (b', outs) /\
    length outs = length frames /\
    b' = set_confidence_threshold ct2 a' /\
    confidence_threshold a' = ct1 /\
    exercise_type b' = exercise_type a' /\
    rep_count b' = rep_count a' /\
    current_phase b' = current_phase a' /\
    phase_history b' = phase_history a' /\
    thresholds b' = thresholds a' /\
    baseline_y b' = baseline_y a'.
Proof.
  intros Ha Hb.
  assert (Hab : b = set_confidence_threshold ct2 a).
  { unfold RepCounter_init in Ha, Hb.
    destruct (ExerciseType_of_value name); [|discriminate].
    injection Ha as <-. injection Hb as <-. reflexivity. }
  assert (Hct : confidence_threshold a = ct1).
  { unfold RepCounter_init in Ha.
    destruct (ExerciseType_of_value name); [|discriminate].
    injection Ha as <-. reflexivity. }
  destruct (run_counts arccos frames a (wf_init _ _ _ Ha))
    as (a' & outs & Hrun & _ & Hlen & _).
  exists a', (set_confidence_threshold ct2 a'), outs.
  split; [exact Hrun|]. split; [rewrite Hab, run_ct, Hrun; reflexivity|].
  split; [exact Hlen|]. split; [reflexivity|]. split; [|repeat split].
  clear Hab Hb b. rewrite <- Hct. clear Hct Ha Hlen.
  revert a a' outs Hrun. induction frames as [|f frames IH]; intros a a' outs Hrun.
  - injection Hrun as <- _. reflexivity.
  - cbn [run] in Hrun.
    destruct (update arccos f a) as [[s1 o1]|] eqn:Hu; [|discriminate].
    cbn [mbind option_bind] in Hrun.
    destruct (run arccos frames s1) as [[s2 o2]|] eqn:Hr; [|discriminate].
    injection Hrun as <- _. rewrite (IH _ _ _ Hr).
    pose proof (update_ct arccos (confidence_threshold a) f a) as Hc.
    replace (set_confidence_threshold (confidence_threshold a) a) with a in Hc
      by (destruct a; reflexivity).
    rewrite Hu in Hc. injection Hc as Hc. rewrite Hc at 1. reflexivity.
Qed.

Lemma confidence_threshold_inert_witness :
  exists a' b' outs,
    run arccos_step [standing; squatting; standing]
        (mkRepCounter SQUAT 0.7 0 NEUTRAL [] (_get_exercise_thresholds SQUAT) None)
    = Some (a', outs) /\
    run arccos_step [standing; squatting; standing]
        (mkRepCounter SQUAT 0.25 0 NEUTRAL [] (_get_exercise_thresholds SQUAT) None)
    = Some (b', outs) /\
    rep_count b' = rep_count a' /\ current_phase b' = current_phase a'.
Proof.
  destruct (confidence_threshold_inert arccos_step "squat" 0.7 0.25 _ _
              [standing; squatting; standing] eq_refl eq_refl)
    as (a' & b' & outs & Ha & Hb & _ & _ & _ & _ & Hn & Hp & _).
  exists a', b', outs. repeat split; assumption.
Defined.

(** ** Reset *)



(** ** Jump counting *)




(** C2, as the code has it.  A jump counter has thresholds 0.1 and -0.05.
    A frame lacking an ankle entry changes nothing.  On a frame with both
    ankle entries, whatever their visibility, the baseline becomes the
    average ankle height if there is no baseline yet and is kept otherwise;
    with displacement = baseline minus average ankle height, NEUTRAL moves
    to UP when the displacement exceeds 0.1, UP moves to DOWN and the count
    rises by exactly one when it is below -0.05, DOWN moves to NEUTRAL when
    its absolute value is below 0.02, and otherwise phase and count stay.
    No sequence of updates changes a baseline once it is set. *)
Theorem jump_update_transitions (arccos : float -> float) (self : RepCounter)
    (mp : MPLandmarks) :
  reachable arccos self ->
  exercise_type self = JUMP ->
  (thresholds self !! "up_threshold" = Some 0.1%float /\
   thresholds self !! "down_threshold" = Some (-0.05)%float) /\
  (_mediapipe_to_landmarks mp !! "left_ankle" = None \/
   _mediapipe_to_landmarks mp !! "right_ankle" = None ->
   exists analysis,
     update arccos mp self =
     Some (self, (rep_count self, phase_value (current_phase self), analysis))) /\
  (forall left_ankle right_ankle : PoseLandmark,
     _mediapipe_to_landmarks mp !! "left_ankle" = Some left_ankle ->
     _mediapipe_to_landmarks mp !! "right_ankle" = Some right_ankle ->
     let avg_ankle_y := ((y left_ankle + y right_ankle) / 2)%float in
     let baseline := match baseline_y self with Some b => b | None => avg_ankle_y end in
     let displacement := (baseline - avg_ankle_y)%float in
     exists self' analysis,
       update arccos mp self =
       Some (self', (rep_count self', phase_value (current_phase self'), analysis)) /\
       baseline_y self' = Some baseline /\
       analysis !! "displacement" = Some (PyFloat displacement) /\
       (current_phase self = NEUTRAL -> (0.1 <? displacement)%float = true ->
        current_phase self' = UP /\ rep_count self' = rep_count self) /\
       (current_phase self = UP -> (displacement <? -0.05)%float = true ->
        current_phase self' = DOWN /\ rep_count self' = rep_count self + 1) /\
       (current_phase self = DOWN -> (abs displacement <? 0.02)%float = true ->
        current_phase self' = NEUTRAL /\ rep_count self' = rep_count self) /\
       (~ (current_phase self = NEUTRAL /\ (0.1 <? displacement)%float = true) ->
        ~ (current_phase self = UP /\ (displacement <? -0.05)%float = true) ->
        ~ (current_phase self = DOWN /\ (abs displacement <? 0.02)%float = true) ->
        current_phase self' = current_phase self /\ rep_count self' = rep_count self)) /\
  (forall (b : float) (frames : list MPLandmarks),
     baseline_y self = Some b ->
     exists self' outs,
       run arccos frames self = Some (self', outs) /\ baseline_y self' = Some b).
Proof.
  intros Hr Et. apply reachable_wf in Hr. pose proof Hr as (Ht & _). rewrite Et in Ht.
  split; [rewrite Ht; split; reflexivity|]. split; [|split].
  - intros Hmiss. unfold update.
    destruct (decide (_mediapipe_to_landmarks mp = ∅)); [exists ∅; reflexivity|].
    rewrite Et, (count_jumps_missing _ _ Hmiss). exists jump_analysis. reflexivity.
  - intros la ra Hl Hra. cbn zeta. unfold update.
    destruct (decide (_mediapipe_to_landmarks mp = ∅)) as [He|_].
    { rewrite He in Hl. discriminate Hl. }
    rewrite Et, (count_jumps_present _ _ _ _ Hl Hra).
    set (base := match baseline_y self with
                 | Some b => b
                 | None => ((y la + y ra) / 2)%float
                 end).
    set (d := (base - (y la + y ra) / 2)%float).
    assert (Ht1 : thresholds (set_baseline_y (Some base) self) = _get_exercise_thresholds JUMP)
      by exact Ht.
    rewrite (jump_state_machine_jump _ _ Ht1). cbn [fmap option_fmap option_map].
    eexists _, _. split; [reflexivity|].
    clearbody d base. destruct self as [t ct n p h th b]; cbn in *.
    destruct p, (0.1 <? d)%float, (d <? -0.05)%float, (abs d <? 0.02)%float; cbn;
      repeat split; intros; try congruence; try tauto.
  - intros b frames Hb.
    destruct (run_counts arccos frames self Hr) as (s & outs & Hrun & _ & _ & _ & _ & Hkeep).
    exists s, outs. split; [exact Hrun | exact (Hkeep b Hb)].
Qed.

Lemma jump_update_transitions_witness :
  let self := mkRepCounter JUMP 0.7 0 NEUTRAL [] (_get_exercise_thresholds JUMP)
                (Some 0.75%float) in
  reachable arccos_step self /\
  exists self' analysis,
    update arccos_step (ankles_at 0.5) self =
    Some (self', (rep_count self', phase_value (current_phase self'), analysis)) /\
    baseline_y self' = Some 0.75%float /\
    analysis !! "displacement" = Some (PyFloat 0.25) /\
    current_phase self' = UP /\ rep_count self' = 0.
Proof.
  cbn zeta.
  assert (Hr : reachable arccos_step
                 (mkRepCounter JUMP 0.7 0 NEUTRAL [] (_get_exercise_thresholds JUMP)
                    (Some 0.75%float))).
  { eapply (reachable_update arccos_step _ (ankles_at 0.75)).
    - apply (reachable_init arccos_step "jump" 0.7%float). reflexivity.
    - vm_compute. reflexivity. }
  split; [exact Hr|].
  destruct (proj1 (proj2 (proj2 (jump_update_transitions arccos_step _ (ankles_at 0.5)
                                   Hr eq_refl)))
              (joint 0.25 0.5) (joint 0.75 0.5) eq_refl eq_refl)
    as (self' & analysis & Hu & Hb & Hd & Hn & _).
  exists self', analysis. split; [exact Hu|]. split; [exact Hb|]. split; [exact Hd|].
  apply Hn; reflexivity.
Defined.

(** C2 as stated fails: the baseline is taken from the first frame that
    has both ankle entries, visible or not.  Here the first frame reports
    both ankles with visibility 0.25 at height 0.5 and the second reports
    them fully visible at height 0.75; the baseline after both frames is
    0.5, not the 0.75 of the first frame in which the ankles are visible,
    and the second frame's displacement is -0.25. *)
Lemma jump_baseline_from_hidden_ankles :
  let self := mkRepCounter JUMP 0.7 0 NEUTRAL [] (_get_exercise_thresholds JUMP) None in
  RepCounter_init "jump" 0.7 = Some self /\
  all_visible (_mediapipe_to_landmarks ankles_hidden) ["left_ankle"; "right_ankle"] = false /\
  unusable (_mediapipe_to_landmarks ankles_hidden) "left_ankle" /\
  all_visible (_mediapipe_to_landmarks (ankles_at 0.75)) ["left_ankle"; "right_ankle"] = true /\
  exists self' out1 out2,
    run arccos_step [ankles_hidden; ankles_at 0.75] self = Some (self', [out1; out2]) /\
    baseline_y self' = Some 0.5%float /\
    baseline_y self' <> Some 0.75%float /\
    out2.2 !! "displacement" = Some (PyFloat (-0.25)).
Proof.
  cbn zeta. split; [reflexivity|]. split; [reflexivity|]. split.
  { right. exists (mkPoseLandmark 0.25 0.5 0.25). split; reflexivity. }
  split; [reflexivity|].
  eexists _, _, _. split; [vm_compute; reflexivity|].
  split; [reflexivity|]. split; [discriminate | reflexivity].
Qed.

(** * Further properties of the module *)

(** ** The landmark conversion *)

Lemma landmark_names_NoDup : NoDup landmark_names.
Proof. apply (bool_decide_unpack _). vm_compute. reflexivity. Qed.

Lemma landmark_names_length : length landmark_names = 33%nat.
Proof. reflexivity. Qed.

Lemma PoseLandmark_eta (lm : PoseLandmark) :
  mkPoseLandmark (x lm) (y lm) (visibility lm) = lm.
Proof. destruct lm. reflexivity. Qed.

(** The loop of [_mediapipe_to_landmarks], entered at index [k] with the
    dictionary [acc]: a name of the vocabulary is looked up at its index. *)
Lemma mediapipe_loop_lookup (l : list PoseLandmark) (k : nat)
    (acc : gmap string PoseLandmark) (i : nat) (name : string) :
  landmark_names !! i = Some name ->
  foldl (fun landmarks '(i, lm) =>
           match landmark_names !! i with
           | Some name => <[ name := mkPoseLandmark (x lm) (y lm) (visibility lm) ]> landmarks
           | None => landmarks
           end)
        acc (zip (seq k (length l)) l) !! name =
  if decide (k <= i < k + length l)%nat then l !! (i - k)%nat else acc !! name.
Proof.
  intros Hi. revert k acc. induction l as [|a l IH]; intros k acc.
  - cbn. destruct (decide (k <= i < k + 0)%nat); [lia | reflexivity].
  - cbn [length seq zip zip_with foldl]. rewrite IH.
    destruct (decide (S k <= i < S k + length l)%nat) as [Hin|Hout].
    + destruct (decide (k <= i < k + S (length l))%nat); [|lia].
      replace (i - k)%nat with (S (i - S k)) by lia. reflexivity.
    + destruct (decide (i = k)) as [->|Hne].
      * rewrite Hi, lookup_insert_eq, PoseLandmark_eta.
        destruct (decide (k <= k < k + S (length l))%nat); [|lia].
        replace (k - k)%nat with 0%nat by lia. reflexivity.
      * destruct (decide (k <= i < k + S (length l))%nat); [lia|].
        destruct (landmark_names !! k) as [other|] eqn:Hk; [|reflexivity].
        apply lookup_insert_ne. intros ->.
        apply Hne. exact (NoDup_lookup _ _ _ _ landmark_names_NoDup Hi Hk).
Qed.

Lemma mediapipe_loop_foreign (l : list PoseLandmark) (k : nat)
    (acc : gmap string PoseLandmark) (name : string) :
  name ∉ landmark_names ->
  foldl (fun landmarks '(i, lm) =>
           match landmark_names !! i with
           | Some name => <[ name := mkPoseLandmark (x lm) (y lm) (visibility lm) ]> landmarks
           | None => landmarks
           end)
        acc (zip (seq k (length l)) l) !! name = acc !! name.
Proof.
  intros Hout. revert k acc. induction l as [|a l IH]; intros k acc; [reflexivity|].
  cbn [length seq zip zip_with foldl]. rewrite IH.
  destruct (landmark_names !! k) as [other|] eqn:Hk; [|reflexivity].
  apply lookup_insert_ne. intros ->. apply Hout.
  apply list_elem_of_lookup. exists k. exact Hk.
Qed.

Lemma mediapipe_lookup_index (landmark : list PoseLandmark) (i : nat) (name : string) :
  landmark_names !! i = Some name ->
  _mediapipe_to_landmarks (Some landmark) !! name = landmark !! i.
Proof.
  intros Hi. unfold _mediapipe_to_landmarks.
  rewrite (mediapipe_loop_lookup landmark 0 ∅ i name Hi).
  destruct (decide (0 <= i < 0 + length landmark)%nat) as [_|Hout].
  - replace (i - 0)%nat with i by lia. reflexivity.
  - rewrite lookup_empty. symmetry. apply lookup_ge_None. lia.
Qed.

(** X1.  The conversion stores the [i]-th detected landmark, unchanged,
    under the [i]-th name of the vocabulary: looking a name up in the
    converted dictionary is indexing the detector's list, and a name whose
    index is past the end of the list is absent. *)
Theorem mediapipe_lookup (landmark : list PoseLandmark) (i : nat) (name : string) :
  landmark_names !! i = Some name ->
  _mediapipe_to_landmarks (Some landmark) !! name = landmark !! i /\
  ((length landmark <= i)%nat -> _mediapipe_to_landmarks (Some landmark) !! name = None).
Proof.
  intros Hi. pose proof (mediapipe_lookup_index landmark i name Hi) as H.
  split; [exact H|]. intros Hlen. rewrite H. apply lookup_ge_None. exact Hlen.
Qed.

Lemma mediapipe_lookup_witness :
  _mediapipe_to_landmarks squatting !! "left_knee" = Some (joint 0.5 0.75) /\
  _mediapipe_to_landmarks plank_no_knee !! "left_knee" = None.
Proof.
  split.
  - exact (proj1 (mediapipe_lookup (pose_of [ ("left_shoulder", joint 0.5 0.25);
                                               ("left_hip", joint 0.5 0.5);
                                               ("left_knee", joint 0.5 0.75);
                                               ("left_ankle", joint 0.75 0.75) ])
                    25 "left_knee" eq_refl)).
  - exact (proj1 (mediapipe_lookup (take 25 (pose_of [ ("left_shoulder", joint 0.25 0.5);
                                                        ("left_elbow", joint 0.25 0.75);
                                                        ("left_wrist", joint 0.25 1);
                                                        ("left_hip", joint 0.75 0.5) ]))
                    25 "left_knee" eq_refl)).
Defined.

(** X2.  Only the first 33 detected landmarks are read, no key outside the
    vocabulary is ever stored, and the converted dictionary is empty
    exactly when the detector returned nothing or an empty list; so
    [update] on a longer list is [update] on its first 33 entries. *)
Theorem mediapipe_truncates (arccos : float -> float) (landmark : list PoseLandmark)
    (mp : MPLandmarks) (name : string) (self : RepCounter) :
  _mediapipe_to_landmarks (Some landmark) = _mediapipe_to_landmarks (Some (take 33 landmark)) /\
  update arccos (Some landmark) self = update arccos (Some (take 33 landmark)) self /\
  (name ∉ landmark_names -> _mediapipe_to_landmarks mp !! name = None) /\
  (_mediapipe_to_landmarks mp = ∅ <-> mp = None \/ mp = Some []).
Proof.
  assert (Hforeign : forall (l : list PoseLandmark) (n : string),
             n ∉ landmark_names -> _mediapipe_to_landmarks (Some l) !! n = None).
  { intros l n Hn. unfold _mediapipe_to_landmarks.
    rewrite (mediapipe_loop_foreign l 0 ∅ n Hn). apply lookup_empty. }
  assert (Htake : _mediapipe_to_landmarks (Some landmark) =
                  _mediapipe_to_landmarks (Some (take 33 landmark))).
  { apply map_eq. intros n. destruct (decide (n ∈ landmark_names)) as [Hin|Hout].
    - apply list_elem_of_lookup in Hin. destruct Hin as [i Hi].
      rewrite !(mediapipe_lookup_index _ i n Hi).
      pose proof (lookup_lt_Some _ _ _ Hi) as Hlt. rewrite landmark_names_length in Hlt.
      symmetry. apply lookup_take_lt. exact Hlt.
    - rewrite !Hforeign by exact Hout. reflexivity. }
  split; [exact Htake|]. split; [unfold update; rewrite Htake; reflexivity|]. split.
  - intros Hout. destruct mp as [l|]; [apply Hforeign, Hout | apply lookup_empty].
  - split.
    + destruct mp as [[|a l]|]; [right; reflexivity | | left; reflexivity].
      intros He. exfalso.
      pose proof (mediapipe_lookup_index (a :: l) 0 "nose" eq_refl) as Hn.
      rewrite He, lookup_empty in Hn. discriminate Hn.
    + intros [-> | ->]; reflexivity.
Qed.

(** ** Session statistics *)

(** The phase names reported by a list of outputs. *)
Definition phases (outs : list Output) : list string := (fun o : Output => o.1.2) <$> outs.

Lemma ExerciseType_value_of (name : string) (t : ExerciseType) :
  ExerciseType_of_value name = Some t -> ExerciseType_value t = name.
Proof.
  unfold ExerciseType_of_value.
  repeat (destruct (decide _) as [->|_]; [intros [= <-]; reflexivity|]).
  discriminate.
Qed.

Lemma run_last_output (arccos : float -> float) (frames : list MPLandmarks)
    (self : RepCounter) :
  wf self ->
  exists self' outs,
    run arccos frames self = Some (self', outs) /\
    wf self' /\
    exercise_type self' = exercise_type self /\
    default (rep_count self) (last (counts outs)) = rep_count self' /\
    default (phase_value (current_phase self)) (last (phases outs)) =
    phase_value (current_phase self').
Proof.
  revert self. induction frames as [|f frames IH]; intros self Hwf.
  - exists self, []. repeat split; try reflexivity; apply Hwf.
  - destruct (update_stepped arccos f self Hwf) as (s1 & a & Hu & Hst & _).
    pose proof (stepped_wf _ _ Hwf Hst) as Hwf1.
    destruct (IH s1 Hwf1) as (s2 & outs & Hrun & Hwf2 & Et & Hc & Hp).
    exists s2, ((rep_count s1, phase_value (current_phase s1), a) :: outs).
    cbn [run]. rewrite Hu. cbn [mbind option_bind]. rewrite Hrun. cbn [mbind option_bind].
    split; [reflexivity|]. split; [exact Hwf2|].
    split; [rewrite Et; apply Hst|].
    unfold counts, phases in *. cbn [fmap list_fmap fst snd]. rewrite !last_cons.
    split.
    + destruct (last ((fun o : Output => o.1.1) <$> outs)); exact Hc.
    + destruct (last ((fun o : Output => o.1.2) <$> outs)); exact Hp.
Qed.

(** X3.  After any session on a counter built by the constructor,
    [get_statistics] reports as total the count returned by the last
    update (0 without updates), as phase the phase name returned by the
    last update ("neutral" without updates), as exercise type the very
    string given to the constructor, and an empty phase history: nothing
    ever appends to it.  The phase is never "extended" and the total is
    never negative. *)
Theorem statistics_after_session (arccos : float -> float) (name : string) (ct : float)
    (new : RepCounter) (frames : list MPLandmarks) :
  RepCounter_init name ct = Some new ->
  exists self outs,
    run arccos frames new = Some (self, outs) /\
    get_statistics self =
    (default 0 (last (counts outs)), default "neutral" (last (phases outs)), name, []) /\
    0 <= rep_count self /\
    phase_value (current_phase self) ∈ ["neutral"; "down"; "up"].
Proof.
  intros Hnew. pose proof (wf_init _ _ _ Hnew) as Hwf.
  destruct (run_last_output arccos frames new Hwf) as (s & outs & Hrun & Hwf' & Et & Hc & Hp).
  exists s, outs. split; [exact Hrun|].
  unfold RepCounter_init in Hnew.
  destruct (ExerciseType_of_value name) as [t|] eqn:Hname; [|discriminate].
  injection Hnew as <-. cbn [rep_count current_phase exercise_type phase_value] in *.
  destruct Hwf' as (_ & Hh & Hx & Hn).
  split; [|split; [exact Hn|]].
  - unfold get_statistics. rewrite Hc, Hp, Hh, Et. cbn [exercise_type].
    rewrite (ExerciseType_value_of _ _ Hname). reflexivity.
  - destruct (current_phase s); cbn; [left | right; left | right; right; left | congruence].
Qed.

Lemma statistics_after_session_witness :
  exists self outs,
    run arccos_step [standing; squatting; standing]
        (mkRepCounter SQUAT 0.7 0 NEUTRAL [] (_get_exercise_thresholds SQUAT) None)
    = Some (self, outs) /\
    get_statistics self = (1, "up", "squat", []).
Proof.
  destruct (statistics_after_session arccos_step "squat" 0.7 _
              [standing; squatting; standing] eq_refl)
    as (self & outs & Hrun & Hstat & _).
  exists self, outs. split; [exact Hrun|].
  assert (E : (fun r : RepCounter * list Output => get_statistics r.1) <$>
                run arccos_step [standing; squatting; standing]
                  (mkRepCounter SQUAT 0.7 0 NEUTRAL [] (_get_exercise_thresholds SQUAT) None)
              = Some (1, "up", "squat", [])) by (vm_compute; reflexivity).
  rewrite Hrun in E. injection E as E1 E2 E3 E4.
  unfold get_statistics. rewrite E1, E2, E3, E4. reflexivity.
Defined.

(** ** Pull-up counters *)

Lemma run_pullup (arccos : float -> float) (self : RepCounter)
    (frames : list MPLandmarks) :
  exercise_type self = PULLUP ->
  run arccos frames self =
  Some (self, replicate (length frames)
                (rep_count self, phase_value (current_phase self), ∅)).
Proof.
  intros Et. induction frames as [|f frames IH]; [reflexivity|].
  cbn [run length replicate].
  assert (Hu : update arccos f self = Some (unchanged ∅ self)).
  { unfold update. rewrite Et. destruct (decide _); reflexivity. }
  rewrite Hu. cbn [unchanged mbind option_bind]. rewrite IH. reflexivity.
Qed.

(** X4.  A counter whose exercise type is pull-up is accepted by the
    constructor but never counts: every update, on any frame, returns the
    counter as it is together with its count, its phase and an empty
    analysis. *)
Theorem pullup_never_counts (arccos : float -> float) (self : RepCounter)
    (frames : list MPLandmarks) :
  exercise_type self = PULLUP ->
  run arccos frames self =
  Some (self, replicate (length frames)
                (rep_count self, phase_value (current_phase self), ∅)).
Proof. apply run_pullup. Qed.

Lemma pullup_never_counts_witness :
  RepCounter_init "pullup" 0.7 =
  Some (mkRepCounter PULLUP 0.7 0 NEUTRAL [] ∅ None) /\
  run arccos_step [standing; squatting; standing; ankles_at 0.5]
      (mkRepCounter PULLUP 0.7 0 NEUTRAL [] ∅ None) =
  Some (mkRepCounter PULLUP 0.7 0 NEUTRAL [] ∅ None,
        replicate 4 (0, "neutral", ∅)).
Proof.
  split; [reflexivity|].
  exact (pullup_never_counts arccos_step (mkRepCounter PULLUP 0.7 0 NEUTRAL [] ∅ None)
           [standing; squatting; standing; ankles_at 0.5] eq_refl).
Defined.

(** ** Push-up counting *)

(** The elbow angle [_count_pushups] reads from a frame's analysis, if the
    analysis has one. *)
Definition elbow_reading (arccos : float -> float) (mp_landmarks : MPLandmarks)
  : option float :=
  analysis ← analyze_pushup_posture arccos (_mediapipe_to_landmarks mp_landmarks);
  v ← analysis !! "elbow_angle";
  as_float v.

(** A push-up frame, arm bent at a right angle, knee in line with the body. *)
Definition pushup_low : MPLandmarks :=
  Some (pose_of [ ("left_shoulder", joint 0.25 0.5); ("left_elbow", joint 0.25 0.75);
                  ("left_wrist", joint 0.5 0.75); ("left_hip", joint 0.5 0.5);
                  ("left_knee", mkPoseLandmark 0.75 0.5 0) ]).

(** X5.  A counter constructed for push-up has thresholds 90 and 160.  On
    an update whose analysis yields an elbow angle the update returns, and:
    from NEUTRAL an angle below 90 leads to DOWN; from DOWN an angle above
    160 leads to UP and adds exactly one repetition; from UP an angle above
    160 leads to NEUTRAL with the count unchanged; in every other case,
    among them an angle of exactly 90 or 160 and a NaN angle, phase and
    count are unchanged. *)
Theorem pushup_update_transitions (arccos : float -> float) (self : RepCounter)
    (mp : MPLandmarks) (elbow_angle : float) :
  reachable arccos self ->
  exercise_type self = PUSHUP ->
  elbow_reading arccos mp = Some elbow_angle ->
  (thresholds self !! "down_threshold" = Some 90%float /\
   thresholds self !! "up_threshold" = Some 160%float) /\
  exists self' analysis,
    update arccos mp self =
    Some (self', (rep_count self', phase_value (current_phase self'), analysis)) /\
    analysis !! "elbow_angle" = Some (PyFloat elbow_angle) /\
    analysis !! "rep_count" = Some (PyInt (rep_count self')) /\
    analysis !! "phase" = Some (PyStr (phase_value (current_phase self'))) /\
    (current_phase self = NEUTRAL -> (elbow_angle <? 90)%float = true ->
     current_phase self' = DOWN /\ rep_count self' = rep_count self) /\
    (current_phase self = DOWN -> (160 <? elbow_angle)%float = true ->
     current_phase self' = UP /\ rep_count self' = rep_count self + 1) /\
    (current_phase self = UP -> (160 <? elbow_angle)%float = true ->
     current_phase self' = NEUTRAL /\ rep_count self' = rep_count self) /\
    (~ (current_phase self = NEUTRAL /\ (elbow_angle <? 90)%float = true) ->
     ~ (current_phase self = DOWN /\ (160 <? elbow_angle)%float = true) ->
     ~ (current_phase self = UP /\ (160 <? elbow_angle)%float = true) ->
     current_phase self' = current_phase self /\ rep_count self' = rep_count self).
Proof.
  intros Hr Et Hk. apply reachable_wf in Hr. pose proof Hr as (Ht & _).
  rewrite Et in Ht. split; [rewrite Ht; split; reflexivity|].
  unfold elbow_reading in Hk.
  destruct (analyze_pushup_cases arccos (_mediapipe_to_landmarks mp))
    as [[_ H] | (shoulder & elbow & wrist & hip & Hs & _ & _ & _ & _ & H)];
    rewrite H in Hk; cbn [mbind option_bind] in Hk; [discriminate Hk|].
  rewrite pushup_report_elbow in Hk. injection Hk as Hk.
  unfold update. destruct (decide (_mediapipe_to_landmarks mp = ∅)) as [He|_].
  { rewrite He in Hs. discriminate Hs. }
  rewrite Et, (count_pushups_visible _ _ _ _ _ H), Hk.
  rewrite (angle_state_machine_pushup _ _ Ht). cbn [fmap option_fmap option_map finish].
  eexists _, _. split; [reflexivity|]. split; [reflexivity|].
  split; [reflexivity|]. split; [reflexivity|].
  destruct self as [t c n p h th b]; cbn in *.
  destruct p, (elbow_angle <? 90)%float, (160 <? elbow_angle)%float; cbn;
    repeat split; intros; try congruence; try tauto.
Qed.

Lemma pushup_update_transitions_witness :
  let self := mkRepCounter PUSHUP 0.7 0 NEUTRAL [] (_get_exercise_thresholds PUSHUP) None in
  reachable arccos_step self /\
  elbow_reading arccos_step pushup_low = Some 90%float /\
  exists self' analysis,
    update arccos_step pushup_low self =
    Some (self', (rep_count self', phase_value (current_phase self'), analysis)) /\
    current_phase self' = NEUTRAL /\ rep_count self' = 0.
Proof.
  cbn zeta.
  assert (Hr : reachable arccos_step
                 (mkRepCounter PUSHUP 0.7 0 NEUTRAL [] (_get_exercise_thresholds PUSHUP) None))
    by (apply (reachable_init arccos_step "pushup" 0.7%float); reflexivity).
  assert (Hk : elbow_reading arccos_step pushup_low = Some 90%float)
    by (vm_compute; reflexivity).
  split; [exact Hr|]. split; [exact Hk|].
  destruct (pushup_update_transitions arccos_step _ pushup_low 90%float Hr eq_refl Hk)
    as (_ & self' & a' & Hu & _ & _ & _ & _ & _ & _ & Hstay).
  exists self', a'. split; [exact Hu|].
  apply Hstay; intros [H1 H2]; discriminate.
Defined.

(** ** Push-up posture *)

(** X6.  With the four required push-up joints visible and a [left_knee]
    entry present, whatever the knee's visibility, the push-up analysis
    reports the elbow angle (shoulder, elbow, wrist) and the body angle
    (shoulder, hip, knee) and the score 100 minus 15 when the elbow angle
    is above 170, else minus 10 when it is below 45, and minus 20 when the
    body angle is below 160; the messages come in the order of the checks
    and the floor at 0 never applies. *)
Theorem pushup_posture_score (arccos : float -> float)
    (landmarks : gmap string PoseLandmark)
    (shoulder elbow wrist hip knee : PoseLandmark) :
  landmarks !! "left_shoulder" = Some shoulder ->
  landmarks !! "left_elbow" = Some elbow ->
  landmarks !! "left_wrist" = Some wrist ->
  landmarks !! "left_hip" = Some hip ->
  landmarks !! "left_knee" = Some knee ->
  (0.5 <? visibility shoulder)%float = true ->
  (0.5 <? visibility elbow)%float = true ->
  (0.5 <? visibility wrist)%float = true ->
  (0.5 <? visibility hip)%float = true ->
  let elbow_angle := calculate_angle arccos shoulder elbow wrist in
  let body_angle := calculate_angle arccos shoulder hip knee in
  let elbow_deduction :=
    if (170 <? elbow_angle)%float then 15
    else if (elbow_angle <? 45)%float then 10 else 0 in
  let body_deduction := if (body_angle <? 160)%float then 20 else 0 in
  let elbow_errors :=
    if (170 <? elbow_angle)%float then ["Lower chest closer to ground"]
    else if (elbow_angle <? 45)%float then ["Chest too close to ground"] else [] in
  let body_errors :=
    if (body_angle <? 160)%float then ["Keep body in straight line"] else [] in
  let score := 100 - elbow_deduction - body_deduction in
  analyze_pushup_posture arccos landmarks =
  Some {[ "score" := PyInt score; "errors" := PyStrList (elbow_errors ++ body_errors);
          "elbow_angle" := PyFloat elbow_angle; "body_angle" := PyFloat body_angle ]} /\
  65 <= score <= 100.
Proof.
  intros Hs He Hw Hh Hk Vs Ve Vw Vh. cbn zeta.
  assert (Hv : all_visible landmarks pushup_required = true).
  { apply all_visible_intro. intros lm Hlm. unfold pushup_required in Hlm.
    repeat (apply elem_of_cons in Hlm; destruct Hlm as [->|Hlm]); eauto.
    inversion Hlm. }
  rewrite (analyze_pushup_visible arccos _ _ _ _ _ Hs He Hw Hh Hv), Hk.
  unfold pushup_report.
  destruct (170 <? calculate_angle arccos shoulder elbow wrist)%float;
    [|destruct (calculate_angle arccos shoulder elbow wrist <? 45)%float];
    destruct (calculate_angle arccos shoulder hip knee <? 160)%float;
    (split; [reflexivity | lia]).
Qed.

Lemma pushup_posture_score_witness :
  _mediapipe_to_landmarks pushup_low !! "left_knee" = Some (mkPoseLandmark 0.75 0.5 0) /\
  analyze_pushup_posture arccos_step (_mediapipe_to_landmarks pushup_low) =
  Some {[ "score" := PyInt 100; "errors" := PyStrList [];
          "elbow_angle" := PyFloat 90; "body_angle" := PyFloat 180 ]}.
Proof.
  split; [reflexivity|].
  exact (proj1 (pushup_posture_score arccos_step (_mediapipe_to_landmarks pushup_low)
                  (joint 0.25 0.5) (joint 0.25 0.75) (joint 0.5 0.75) (joint 0.5 0.5)
                  (mkPoseLandmark 0.75 0.5 0)
                  eq_refl eq_refl eq_refl eq_refl eq_refl eq_refl eq_refl eq_refl eq_refl)).
Defined.

(** ** What the analyzers can return *)

(** The part of an analysis a caller reads first. *)
Definition graded (analysis : gmap string PyVal) (score : Z) (errors : list string) : Prop :=
  analysis !! "score" = Some (PyInt score) /\
  analysis !! "errors" = Some (PyStrList errors).

Lemma squat_report_graded (k b : float) :
  exists score errors,
    graded (squat_report k b) score errors /\
    score ∈ [65; 70; 80; 85; 90; 100] /\
    (score = 100 <-> errors = []) /\
    (length errors <= 2)%nat /\
    "Pose not clearly visible" ∉ errors.
Proof.
  unfold squat_report, graded.
  destruct (k <? 70)%float; [|destruct (160 <? k)%float]; destruct (b <? 160)%float;
    eexists _, _; (split; [split; reflexivity|]);
    (split; [cbn; repeat (first [left; reflexivity | right])|]);
    (split; [split; intros H; first [reflexivity | discriminate H | cbn in H; lia]|]);
    (split; [cbn; lia|]);
    intros Hin;
    repeat (apply elem_of_cons in Hin; destruct Hin as [Hin|Hin]; [discriminate Hin|]);
    inversion Hin.
Qed.

Lemma pushup_report_graded (e b : float) :
  exists score errors,
    graded (pushup_report e b) score errors /\
    score ∈ [65; 70; 80; 85; 90; 100] /\
    (score = 100 <-> errors = []) /\
    (length errors <= 2)%nat /\
    "Pose not clearly visible" ∉ errors.
Proof.
  unfold pushup_report, graded.
  destruct (170 <? e)%float; [|destruct (e <? 45)%float]; destruct (b <? 160)%float;
    eexists _, _; (split; [split; reflexivity|]);
    (split; [cbn; repeat (first [left; reflexivity | right])|]);
    (split; [split; intros H; first [reflexivity | discriminate H | cbn in H; lia]|]);
    (split; [cbn; lia|]);
    intros Hin;
    repeat (apply elem_of_cons in Hin; destruct Hin as [Hin|Hin]; [discriminate Hin|]);
    inversion Hin.
Qed.

(** X7.  On every landmark set both analyzers return, with a score and an
    error list.  The score is 0 exactly when the visibility gate fails, and
    then the only message is "Pose not clearly visible" and no angle is
    reported; otherwise it is one of 65, 70, 80, 85, 90, 100, so the floor
    at 0 never applies, there are at most two messages, and the score is
    100 exactly when there is no message. *)
Theorem analyzer_grades (arccos : float -> float) (landmarks : gmap string PoseLandmark) :
  (exists analysis score errors,
     analyze_squat_posture arccos landmarks = Some analysis /\
     graded analysis score errors /\
     score ∈ [0; 65; 70; 80; 85; 90; 100] /\
     (score = 0 <-> all_visible landmarks squat_required = false) /\
     (score = 0 <-> errors = ["Pose not clearly visible"]) /\
     (score = 0 <-> analysis !! "knee_angle" = None) /\
     (score = 100 <-> errors = []) /\
     (length errors <= 2)%nat) /\
  (exists analysis score errors,
     analyze_pushup_posture arccos landmarks = Some analysis /\
     graded analysis score errors /\
     score ∈ [0; 65; 70; 80; 85; 90; 100] /\
     (score = 0 <-> all_visible landmarks pushup_required = false) /\
     (score = 0 <-> errors = ["Pose not clearly visible"]) /\
     (score = 0 <-> analysis !! "elbow_angle" = None) /\
     (score = 100 <-> errors = []) /\
     (length errors <= 2)%nat).
Proof.
  split.
  - destruct (analyze_squat_cases arccos landmarks)
      as [[Hv H] | (hip & knee & ankle & shoulder & _ & _ & _ & _ & Hv & H)].
    + exists not_visible, 0, ["Pose not clearly visible"].
      split; [exact H|]. split; [split; reflexivity|]. split; [left|].
      repeat split; intros; try reflexivity; try assumption; try discriminate.
      cbn. lia.
    + destruct (squat_report_graded (calculate_angle arccos hip knee ankle)
                  (calculate_angle arccos shoulder hip knee))
        as (score & errors & Hg & Hs & H100 & Hlen & Hnv).
      eexists. exists score, errors. split; [exact H|]. split; [exact Hg|].
      assert (H65 : 65 <= score).
      { pose proof Hs as Hs'.
        repeat (apply elem_of_cons in Hs'; destruct Hs' as [->|Hs']); try lia.
        inversion Hs'. }
      split; [right; exact Hs|].
      split; [split; intros E; [lia | congruence]|].
      split; [split; intros E; [lia | subst errors; exfalso; apply Hnv; left]|].
      split; [split; intros E; [lia | rewrite squat_report_knee in E; discriminate E]|].
      split; [exact H100 | exact Hlen].
  - destruct (analyze_pushup_cases arccos landmarks)
      as [[Hv H] | (shoulder & elbow & wrist & hip & _ & _ & _ & _ & Hv & H)].
    + exists not_visible, 0, ["Pose not clearly visible"].
      split; [exact H|]. split; [split; reflexivity|]. split; [left|].
      repeat split; intros; try reflexivity; try assumption; try discriminate.
      cbn. lia.
    + match type of H with _ = Some (pushup_report ?e ?b) =>
        destruct (pushup_report_graded e b) as (score & errors & Hg & Hs & H100 & Hlen & Hnv)
      end.
      eexists. exists score, errors. split; [exact H|]. split; [exact Hg|].
      assert (H65 : 65 <= score).
      { pose proof Hs as Hs'.
        repeat (apply elem_of_cons in Hs'; destruct Hs' as [->|Hs']); try lia.
        inversion Hs'. }
      split; [right; exact Hs|].
      split; [split; intros E; [lia | congruence]|].
      split; [split; intros E; [lia | subst errors; exfalso; apply Hnv; left]|].
      split; [split; intros E; [lia | rewrite pushup_report_elbow in E; discriminate E]|].
      split; [exact H100 | exact Hlen].
Qed.

(** ** Which joints an update reads *)

(** The landmark names the counting routine of an exercise looks up. *)
Definition joints_read (t : ExerciseType) : list string :=
  match t with
  | SQUAT => ["left_hip"; "left_knee"; "left_ankle"; "left_shoulder"]
  | PUSHUP => ["left_shoulder"; "left_elbow"; "left_wrist"; "left_hip"; "left_knee"]
  | JUMP => ["left_ankle"; "right_ankle"]
  | PULLUP => []
  end.

(** The standing pose with right-side joints and a nose reported as well. *)
Definition standing_both_sides : MPLandmarks :=
  Some (pose_of [ ("left_shoulder", joint 0.5 0.25); ("left_hip", joint 0.5 0.5);
                  ("left_knee", joint 0.5 0.75); ("left_ankle", joint 0.5 1);
                  ("nose", joint 0.5 0.125); ("right_hip", joint 0.625 0.5);
                  ("right_knee", joint 0.75 0.625); ("right_ankle", joint 0.75 0.75) ]).

Lemma agree_on_cons (l1 l2 : gmap string PoseLandmark) (lm : string) (rest : list string) :
  (forall k, k ∈ lm :: rest -> l1 !! k = l2 !! k) ->
  l1 !! lm = l2 !! lm /\ (forall k, k ∈ rest -> l1 !! k = l2 !! k).
Proof.
  intros H. split; [apply H; left|]. intros k Hk. apply H. right. exact Hk.
Qed.

Lemma analyze_squat_reads (arccos : float -> float) (l1 l2 : gmap string PoseLandmark) :
  (forall lm, lm ∈ joints_read SQUAT -> l1 !! lm = l2 !! lm) ->
  analyze_squat_posture arccos l1 = analyze_squat_posture arccos l2.
Proof.
  intros H. cbn [joints_read] in H.
  apply agree_on_cons in H as [H1 H]. apply agree_on_cons in H as [H2 H].
  apply agree_on_cons in H as [H3 H]. apply agree_on_cons in H as [H4 _].
  unfold analyze_squat_posture, all_visible, squat_required. cbn [forallb].
  rewrite H1, H2, H3, H4. reflexivity.
Qed.

Lemma analyze_pushup_reads (arccos : float -> float) (l1 l2 : gmap string PoseLandmark) :
  (forall lm, lm ∈ joints_read PUSHUP -> l1 !! lm = l2 !! lm) ->
  analyze_pushup_posture arccos l1 = analyze_pushup_posture arccos l2.
Proof.
  intros H. cbn [joints_read] in H.
  apply agree_on_cons in H as [H1 H]. apply agree_on_cons in H as [H2 H].
  apply agree_on_cons in H as [H3 H]. apply agree_on_cons in H as [H4 H].
  apply agree_on_cons in H as [H5 _].
  unfold analyze_pushup_posture, all_visible, pushup_required. cbn [forallb].
  rewrite H1, H2, H3, H4, H5. reflexivity.
Qed.

(** X8.  An update reads the frame only through the joints of its
    exercise: the left hip, knee, ankle and shoulder for squat; the left
    shoulder, elbow, wrist, hip and knee for push-up; the two ankles for
    jump; nothing for pull-up.  Two frames that are both empty or both
    non-empty and agree on these joints give the same new counter and the
    same output, whatever the other 28 or more landmarks are. *)
Theorem update_reads_only (arccos : float -> float) (self : RepCounter)
    (mp1 mp2 : MPLandmarks) :
  (_mediapipe_to_landmarks mp1 = ∅ <-> _mediapipe_to_landmarks mp2 = ∅) ->
  (forall lm, lm ∈ joints_read (exercise_type self) ->
     _mediapipe_to_landmarks mp1 !! lm = _mediapipe_to_landmarks mp2 !! lm) ->
  update arccos mp1 self = update arccos mp2 self.
Proof.
  intros He H. unfold update.
  destruct (decide (_mediapipe_to_landmarks mp1 = ∅)) as [E1|E1],
           (decide (_mediapipe_to_landmarks mp2 = ∅)) as [E2|E2];
    try reflexivity; try tauto.
  destruct (exercise_type self).
  - unfold _count_squats. rewrite (analyze_squat_reads arccos _ _ H). reflexivity.
  - unfold _count_pushups. rewrite (analyze_pushup_reads arccos _ _ H). reflexivity.
  - cbn [joints_read] in H.
    apply agree_on_cons in H as [H1 H]. apply agree_on_cons in H as [H2 _].
    unfold _count_jumps. rewrite H1, H2. reflexivity.
  - reflexivity.
Qed.

Lemma update_reads_only_witness :
  let self := mkRepCounter SQUAT 0.7 0 NEUTRAL [] (_get_exercise_thresholds SQUAT) None in
  _mediapipe_to_landmarks standing <> _mediapipe_to_landmarks standing_both_sides /\
  update arccos_step standing self = update arccos_step standing_both_sides self.
Proof.
  cbn zeta. split.
  - intros E. apply (f_equal (fun m => m !! "nose")) in E. vm_compute in E. discriminate E.
  - apply update_reads_only.
    + split; intros E; exfalso;
        apply (f_equal (fun m => m !! "left_hip")) in E; vm_compute in E; discriminate E.
    + intros lm Hlm. cbn [joints_read exercise_type] in Hlm.
      repeat (apply elem_of_cons in Hlm; destruct Hlm as [->|Hlm]); try reflexivity.
      inversion Hlm.
Defined.

(** ** Symmetry of the angle *)

(** X9.  The angle at the vertex does not depend on the order in which the
    two outer points are given, bit for bit, NaN included. *)
Theorem calculate_angle_symmetric (arccos : float -> float) (p1 p2 p3 : PoseLandmark) :
  cosine_angle p1 p2 p3 = cosine_angle p3 p2 p1 /\
  calculate_angle arccos p1 p2 p3 = calculate_angle arccos p3 p2 p1.
Proof.
  assert (H : cosine_angle p1 p2 p3 = cosine_angle p3 p2 p1).
  { unfold cosine_angle, np.dot. cbn [np.sub np.array fst snd].
    rewrite (FloatFacts.fma_comm (x p1 - x p2) (x p3 - x p2)).
    rewrite (FloatFacts.fma_comm (y p1 - y p2) (y p3 - y p2)).
    rewrite (FloatFacts.mul_comm (np.norm _) (np.norm _)). reflexivity. }
  split; [exact H|]. unfold calculate_angle. rewrite H. reflexivity.
Qed.

(** ** Reset and the constructor *)

(** X10.  Resetting a counter that was built by the constructor and driven
    through updates and resets gives exactly the counter the constructor
    builds for the same exercise name and confidence threshold; a session
    after [reset] is therefore a session on a new counter. *)
Theorem reset_is_fresh (arccos : float -> float) (self : RepCounter)
    (frames : list MPLandmarks) :
  reachable arccos self ->
  RepCounter_init (ExerciseType_value (exercise_type self)) (confidence_threshold self) =
  Some (reset self) /\
  run arccos frames (reset self) =
  RepCounter_init (ExerciseType_value (exercise_type self)) (confidence_threshold self)
    ≫= run arccos frames.
Proof.
  intros Hr. apply reachable_wf in Hr. destruct Hr as (Ht & Hh & _).
  assert (E : RepCounter_init (ExerciseType_value (exercise_type self))
                (confidence_threshold self) = Some (reset self)).
  { destruct self as [t ct n p h th b]; cbn in *. subst th h.
    destruct t, b; reflexivity. }
  split; [exact E|]. rewrite E. reflexivity.
Qed.

Lemma reset_is_fresh_witness :
  let self := mkRepCounter JUMP 0.7 0 NEUTRAL [] (_get_exercise_thresholds JUMP)
                (Some 0.75%float) in
  reachable arccos_step self /\
  RepCounter_init "jump" 0.7 = Some (reset self).
Proof.
  cbn zeta.
  assert (Hr : reachable arccos_step
                 (mkRepCounter JUMP 0.7 0 NEUTRAL [] (_get_exercise_thresholds JUMP)
                    (Some 0.75%float))).
  { eapply (reachable_update arccos_step _ (ankles_at 0.75)).
    - apply (reachable_init arccos_step "jump" 0.7%float). reflexivity.
    - vm_compute. reflexivity. }
  split; [exact Hr|].
  exact (proj1 (reset_is_fresh arccos_step _ [] Hr)).
Defined.

(** ** How fast a counter can count *)

(** Progress through the cycle, in thirds of a repetition: three per
    counted repetition, plus the position after the counting edge. *)
Definition progress (self : RepCounter) : Z :=
  3 * rep_count self +
  match exercise_type self, current_phase self with
  | (SQUAT | PUSHUP), NEUTRAL => 1
  | (SQUAT | PUSHUP), DOWN => 2
  | JUMP, NEUTRAL => 1
  | JUMP, UP => 2
  | _, _ => 0
  end.

Lemma stepped_progress (self self' : RepCounter) :
  stepped self self' -> progress self' <= progress self + 1.
Proof.
  intros (Et & _ & _ & _ & _ & Hp & Hc & Hiff). unfold progress. rewrite Et.
  destruct (exercise_type self), (current_phase self) eqn:Ep; cbn [cycle_next] in Hp;
    destruct Hp as [Hp | Hp], Hc as [Hc | Hc]; rewrite ?Hp; try lia;
    try (exfalso; apply Hiff in Hc; destruct Hc as [(_ & H1 & H2) | (H0 & H1 & H2)];
         congruence);
    try (assert (Hn : rep_count self' = rep_count self + 1)
           by (apply Hiff; first [ left; repeat split; solve [reflexivity | left; reflexivity
                                                              | right; reflexivity]
                                 | right; repeat split; reflexivity ]); lia).
Qed.

Lemma run_progress (arccos : float -> float) (frames : list MPLandmarks) (self : RepCounter) :
  wf self ->
  exists self' outs,
    run arccos frames self = Some (self', outs) /\
    progress self' <= progress self + Z.of_nat (length frames).
Proof.
  revert self. induction frames as [|f frames IH]; intros self Hwf.
  - exists self, []. split; [reflexivity | cbn; lia].
  - destruct (update_stepped arccos f self Hwf) as (s1 & a & Hu & Hst & _).
    destruct (IH s1 (stepped_wf _ _ Hwf Hst)) as (s2 & outs & Hrun & Hle).
    eexists _, _. cbn [run]. rewrite Hu. cbn [mbind option_bind]. rewrite Hrun.
    cbn [mbind option_bind]. split; [reflexivity|].
    pose proof (stepped_progress _ _ Hst). cbn [length]. lia.
Qed.

(** X11.  A repetition takes at least three frames, the first one of a new
    counter two: after [n] updates of a new counter, of any exercise and on
    any frames, the count is at most [(n + 1) / 3]; from any state a counter
    can be in, [n] updates add at most [(n + 2) / 3]. *)
Theorem count_rate_bound (arccos : float -> float) (self : RepCounter)
    (frames : list MPLandmarks) :
  reachable arccos self ->
  exists self' outs,
    run arccos frames self = Some (self', outs) /\
    3 * rep_count self' <= 3 * rep_count self + Z.of_nat (length frames) + 2 /\
    (rep_count self = 0 -> current_phase self = NEUTRAL ->
     3 * rep_count self' <= Z.of_nat (length frames) + 1).
Proof.
  intros Hr. apply reachable_wf in Hr.
  destruct (run_progress arccos frames self Hr) as (s & outs & Hrun & Hle).
  exists s, outs. split; [exact Hrun|].
  assert (H0 : 3 * rep_count s <= progress s).
  { unfold progress. destruct (exercise_type s), (current_phase s); lia. }
  split.
  - assert (H2 : progress self <= 3 * rep_count self + 2).
    { unfold progress. destruct (exercise_type self), (current_phase self); lia. }
    lia.
  - intros Hn Hp.
    assert (H1 : progress self <= 1).
    { unfold progress. rewrite Hn, Hp. destruct (exercise_type self); lia. }
    lia.
Qed.

Lemma count_rate_bound_witness :
  let self := mkRepCounter SQUAT 0.7 0 NEUTRAL [] (_get_exercise_thresholds SQUAT) None in
  reachable arccos_step self /\
  exists self' outs,
    run arccos_step [squatting; standing; standing; squatting; standing] self
    = Some (self', outs) /\
    rep_count self' = 2 /\ 3 * rep_count self' <= 5 + 1.
Proof.
  cbn zeta.
  assert (Hr : reachable arccos_step
                 (mkRepCounter SQUAT 0.7 0 NEUTRAL [] (_get_exercise_thresholds SQUAT) None))
    by (apply (reachable_init arccos_step "squat" 0.7%float); reflexivity).
  split; [exact Hr|].
  destruct (count_rate_bound arccos_step _
              [squatting; standing; standing; squatting; standing] Hr)
    as (s & outs & Hrun & _ & Hnew).
  exists s, outs. split; [exact Hrun|]. split; [|exact (Hnew eq_refl eq_refl)].
  assert (E : (fun r : RepCounter * list Output => rep_count r.1) <$>
                run arccos_step [squatting; standing; standing; squatting; standing]
                  (mkRepCounter SQUAT 0.7 0 NEUTRAL [] (_get_exercise_thresholds SQUAT) None)
              = Some 2) by (vm_compute; reflexivity).
  rewrite Hrun in E. injection E as E. exact E.
Defined.

(** ** A subject that does not move *)

(** The angle the state machine of a squat or push-up counter reads from a
    frame. *)
Definition signal_reading (arccos : float -> float) (t : ExerciseType)
    (mp_landmarks : MPLandmarks) : option float :=
  match t with
  | SQUAT => knee_reading arccos mp_landmarks
  | PUSHUP => elbow_reading arccos mp_landmarks
  | _ => None
  end.

(** The [down_threshold] of the two angle exercises. *)
Definition down_angle (t : ExerciseType) : float :=
  match t with
  | PUSHUP => 90%float
  | _ => 110%float
  end.

Lemma angle_state_machine_kind (k : float) (self : RepCounter) :
  exercise_type self = SQUAT \/ exercise_type self = PUSHUP ->
  thresholds self = _get_exercise_thresholds (exercise_type self) ->
  angle_state_machine k self =
  Some match current_phase self with
       | NEUTRAL => if (k <? down_angle (exercise_type self))%float
                    then set_current_phase DOWN self else self
       | DOWN => if (160 <? k)%float
                 then set_rep_count (rep_count self + 1) (set_current_phase UP self)
                 else self
       | UP => if (160 <? k)%float then set_current_phase NEUTRAL self else self
       | EXTENDED => self
       end.
Proof.
  intros [Et | Et] Ht; rewrite Et in *; cbn [down_angle].
  - apply angle_state_machine_squat, Ht.
  - apply angle_state_machine_pushup, Ht.
Qed.

(** The down threshold lies below the up threshold, so no angle is below
    the one and above the other. *)
Lemma angle_bands_disjoint (t : ExerciseType) (k : float) :
  (k <? down_angle t)%float = true -> (160 <? k)%float = false.
Proof.
  apply FloatFacts.ltb_gap. destruct t; reflexivity.
Qed.

Section StillFrames.

Variable arccos : float -> float.

(** A squat or push-up update either runs the state machine on the
    frame's angle or, when the frame has none, returns the counter as it is. *)
Lemma update_by_reading (mp : MPLandmarks) (self : RepCounter) :
  wf self ->
  exercise_type self = SQUAT \/ exercise_type self = PUSHUP ->
  match signal_reading arccos (exercise_type self) mp with
  | Some k =>
      exists self' analysis,
        update arccos mp self =
        Some (self', (rep_count self', phase_value (current_phase self'), analysis)) /\
        angle_state_machine k self = Some self'
  | None =>
      exists analysis,
        update arccos mp self =
        Some (self, (rep_count self, phase_value (current_phase self), analysis))
  end.
Proof.
  intros Hwf [Et | Et]; rewrite Et; cbn [signal_reading].
  - destruct (knee_reading arccos mp) as [k|] eqn:Hk.
    + destruct (update_squat_reading arccos self mp k Hwf Et Hk) as (s & a & Hu & Hm & _).
      exists s, a. split; assumption.
    + unfold update. destruct (decide (_mediapipe_to_landmarks mp = ∅)); [exists ∅; reflexivity|].
      rewrite Et. unfold knee_reading in Hk.
      destruct (analyze_squat_cases arccos (_mediapipe_to_landmarks mp))
        as [[_ H] | (hip & knee & ankle & shoulder & _ & _ & _ & _ & _ & H)].
      * rewrite (count_squats_hidden _ _ _ H). exists not_visible. reflexivity.
      * rewrite H in Hk. cbn [mbind option_bind] in Hk. rewrite squat_report_knee in Hk.
        discriminate Hk.
  - destruct (elbow_reading arccos mp) as [k|] eqn:Hk; unfold elbow_reading in Hk;
      unfold update;
      (destruct (decide (_mediapipe_to_landmarks mp = ∅)) as [He|_];
       [rewrite He in Hk; try discriminate Hk; exists ∅; reflexivity|]);
      rewrite Et;
      destruct (analyze_pushup_cases arccos (_mediapipe_to_landmarks mp))
        as [[_ H] | (shoulder & elbow & wrist & hip & _ & _ & _ & _ & _ & H)];
      rewrite H in Hk; cbn [mbind option_bind] in Hk;
      try rewrite pushup_report_elbow in Hk; try discriminate Hk.
    + injection Hk as Hk. rewrite (count_pushups_visible _ _ _ _ _ H), Hk.
      destruct Hwf as (Ht & _).
      rewrite (angle_state_machine_kind k self (or_intror Et) Ht).
      cbn [fmap option_fmap option_map finish].
      eexists _, _. split; reflexivity.
    + rewrite (count_pushups_hidden _ _ _ H). exists not_visible. reflexivity.
Qed.

(** Repeating one frame: if every update keeps [Inv] and does not raise
    the count plus the number [mu] of repetitions still to come, then the
    count rises by at most [mu]. *)
Lemma run_replicate_potential (mp : MPLandmarks) (Inv : RepCounter -> Prop)
    (mu : RepCounter -> Z) :
  (forall s, Inv s ->
     exists s' out,
       update arccos mp s = Some (s', out) /\ Inv s' /\
       rep_count s <= rep_count s' /\
       rep_count s' + mu s' <= rep_count s + mu s) ->
  forall (n : nat) (s : RepCounter),
    Inv s ->
    exists s' outs,
      run arccos (replicate n mp) s = Some (s', outs) /\
      rep_count s <= rep_count s' /\
      rep_count s' + mu s' <= rep_count s + mu s.
Proof.
  intros Hstep n. induction n as [|n IH]; intros s Hs.
  - exists s, []. split; [reflexivity | lia].
  - destruct (Hstep s Hs) as (s1 & o1 & Hu & Hs1 & Hge & Hle).
    destruct (IH s1 Hs1) as (s2 & outs & Hrun & Hge2 & Hle2).
    exists s2, (o1 :: outs). cbn [replicate run]. rewrite Hu. cbn [mbind option_bind].
    rewrite Hrun. cbn [mbind option_bind]. split; [reflexivity | lia].
Qed.

Lemma still_angle (mp : MPLandmarks) (n : nat) (self : RepCounter) :
  wf self ->
  exercise_type self = SQUAT \/ exercise_type self = PUSHUP ->
  exists self' outs,
    run arccos (replicate n mp) self = Some (self', outs) /\
    rep_count self <= rep_count self' <= rep_count self + 1.
Proof.
  intros Hwf Hkind.
  set (t := exercise_type self).
  set (mu := fun s : RepCounter =>
               match signal_reading arccos t mp, current_phase s with
               | Some k, DOWN => if (160 <? k)%float then 1 else 0
               | _, _ => 0
               end).
  destruct (run_replicate_potential mp
              (fun s => wf s /\ exercise_type s = t) mu) with (n := n) (s := self)
    as (s' & outs & Hrun & Hge & Hle).
  - intros s [Hs Es]. pose proof Hs as (Hts & _).
    assert (Hk : exercise_type s = SQUAT \/ exercise_type s = PUSHUP)
      by (rewrite Es; exact Hkind).
    pose proof (update_by_reading mp s Hs Hk) as Hu. rewrite Es in Hu.
    unfold mu. destruct (signal_reading arccos t mp) as [k|].
    + destruct Hu as (s1 & a & Hu & Hm). exists s1, (rep_count s1, phase_value (current_phase s1), a).
      split; [exact Hu|].
      pose proof (angle_state_machine_stepped k s s1 Hs Hk Hm) as Hst.
      split; [split; [exact (stepped_wf _ _ Hs Hst) | rewrite <- Es; apply Hst]|].
      rewrite (angle_state_machine_kind k s Hk Hts) in Hm. injection Hm as <-.
      destruct s as [ty c cnt p h th b]; cbn in *.
      destruct p; cbn;
        destruct (k <? down_angle ty)%float eqn:E1, (160 <? k)%float eqn:E2; cbn;
        try lia; exfalso;
        pose proof (angle_bands_disjoint ty k E1) as Hg;
        rewrite Hg in E2; discriminate E2.
    + destruct Hu as (a & Hu). exists s, (rep_count s, phase_value (current_phase s), a).
      split; [exact Hu|]. split; [split; [exact Hs | exact Es]|].
      destruct (current_phase s); lia.
  - split; [exact Hwf | reflexivity].
  - exists s', outs. split; [exact Hrun|].
    assert (0 <= mu s' /\ mu self <= 1).
    { unfold mu. destruct (signal_reading arccos t mp) as [k|];
        destruct (current_phase s'), (current_phase self);
        try destruct (160 <? k)%float; lia. }
    lia.
Qed.

Lemma still_jump (mp : MPLandmarks) (n : nat) (self : RepCounter) :
  wf self ->
  exercise_type self = JUMP ->
  exists self' outs,
    run arccos (replicate n mp) self = Some (self', outs) /\
    rep_count self <= rep_count self' <= rep_count self + 1.
Proof.
  intros Hwf Et. set (landmarks := _mediapipe_to_landmarks mp).
  destruct (landmarks !! "left_ankle") as [la|] eqn:Hl;
    [destruct (landmarks !! "right_ankle") as [ra|] eqn:Hra|].
  - set (avg := ((y la + y ra) / 2)%float).
    set (b := match baseline_y self with Some b => b | None => avg end).
    set (d := (b - avg)%float).
    set (mu := fun s : RepCounter =>
                 match current_phase s with
                 | UP => if (d <? -0.05)%float then 1 else 0
                 | _ => 0
                 end).
    destruct (run_replicate_potential mp
                (fun s => wf s /\ exercise_type s = JUMP /\
                          match baseline_y s with Some b' => b' = b | None => b = avg end)
                mu) with (n := n) (s := self) as (s' & outs & Hrun & Hge & Hle).
    + intros s (Hs & Es & Hb). unfold update.
      destruct (decide (_mediapipe_to_landmarks mp = ∅)) as [He|_].
      { fold landmarks in He. rewrite He in Hl. discriminate Hl. }
      rewrite Es. fold landmarks. rewrite (count_jumps_present _ _ _ _ Hl Hra).
      fold avg.
      assert (Hbase : match baseline_y s with Some b' => b' | None => avg end = b)
        by (destruct (baseline_y s); congruence).
      rewrite Hbase. fold d.
      assert (Ht1 : thresholds (set_baseline_y (Some b) s) = _get_exercise_thresholds JUMP).
      { destruct Hs as (Ht & _). rewrite Es in Ht. exact Ht. }
      pose proof (jump_state_machine_jump d _ Ht1) as Hm. rewrite Hm.
      cbn [fmap option_fmap option_map]. eexists _, _. split; [reflexivity|].
      pose proof (jump_state_machine_stepped d _ _ (wf_set_baseline_y (Some b) s Hs) Es Hm)
        as Hst.
      split; [split; [exact (stepped_wf _ _ (wf_set_baseline_y (Some b) s Hs) Hst)|]|].
      * clearbody d. destruct s as [ty c cnt p h th bl]; cbn in Es |- *.
        destruct p; cbn;
          repeat match goal with |- context [if ?c then _ else _] => destruct c eqn:? end;
          cbn; split; first [reflexivity | assumption].
      * unfold mu. clearbody d. destruct s as [ty c cnt p h th bl]; cbn.
        destruct p; cbn;
          destruct (0.1 <? d)%float eqn:E1, (d <? -0.05)%float eqn:E2,
                   (abs d <? 0.02)%float eqn:E3; cbn;
          try lia; exfalso;
          pose proof (FloatFacts.ltb_gap d (-0.05) 0.1 eq_refl E2) as Hg;
          rewrite Hg in E1; discriminate E1.
    + split; [exact Hwf|]. split; [exact Et|]. unfold b. destruct (baseline_y self); reflexivity.
    + exists s', outs. split; [exact Hrun|].
      assert (0 <= mu s' /\ mu self <= 1).
      { unfold mu. destruct (current_phase s'), (current_phase self);
          try destruct (d <? -0.05)%float; lia. }
      lia.
  - destruct (run_replicate_potential mp (fun s => exercise_type s = JUMP) (fun _ => 0))
      with (n := n) (s := self) as (s' & outs & Hrun & Hge & Hle); [|exact Et|].
    + intros s Es. unfold update.
      destruct (decide (_mediapipe_to_landmarks mp = ∅)); [|rewrite Es; fold landmarks;
        rewrite count_jumps_missing by (right; exact Hra)];
        eexists _, _; (split; [reflexivity|]); cbn; (split; [exact Es | lia]).
    + exists s', outs. split; [exact Hrun | lia].
  - destruct (run_replicate_potential mp (fun s => exercise_type s = JUMP) (fun _ => 0))
      with (n := n) (s := self) as (s' & outs & Hrun & Hge & Hle); [|exact Et|].
    + intros s Es. unfold update.
      destruct (decide (_mediapipe_to_landmarks mp = ∅)); [|rewrite Es; fold landmarks;
        rewrite count_jumps_missing by (left; exact Hl)];
        eexists _, _; (split; [reflexivity|]); cbn; (split; [exact Es | lia]).
    + exists s', outs. split; [exact Hrun | lia].
Qed.

End StillFrames.

(** X12.  A frame repeated any number of times is counted at most once:
    whatever the frame and whatever state the counter is in, feeding the
    same frame [n] times raises the count by at most one.  The down and up
    thresholds of each exercise are apart, so a signal that does not
    change cannot complete a second cycle. *)
Theorem still_frame_counts_once (arccos : float -> float) (self : RepCounter)
    (mp : MPLandmarks) (n : nat) :
  reachable arccos self ->
  exists self' outs,
    run arccos (replicate n mp) self = Some (self', outs) /\
    rep_count self <= rep_count self' <= rep_count self + 1.
Proof.
  intros Hr. apply reachable_wf in Hr.
  destruct (exercise_type self) eqn:Et.
  - apply still_angle; [exact Hr | left; exact Et].
  - apply still_angle; [exact Hr | right; exact Et].
  - apply still_jump; [exact Hr | exact Et].
  - rewrite (run_pullup arccos self (replicate n mp) Et).
    eexists _, _. split; [reflexivity | lia].
Qed.

Lemma still_frame_counts_once_witness :
  let self := mkRepCounter SQUAT 0.7 0 DOWN [] (_get_exercise_thresholds SQUAT) None in
  reachable arccos_step self /\
  exists self' outs,
    run arccos_step (replicate 5 standing) self = Some (self', outs) /\
    rep_count self' = 1 /\ current_phase self' = NEUTRAL.
Proof.
  cbn zeta.
  assert (Hr : reachable arccos_step
                 (mkRepCounter SQUAT 0.7 0 DOWN [] (_get_exercise_thresholds SQUAT) None)).
  { eapply (reachable_update arccos_step _ squatting).
    - apply (reachable_init arccos_step "squat" 0.7%float). reflexivity.
    - vm_compute. reflexivity. }
  split; [exact Hr|].
  destruct (still_frame_counts_once arccos_step _ standing 5 Hr) as (s & outs & Hrun & _).
  exists s, outs. split; [exact Hrun|].
  assert (E : (fun r : RepCounter * list Output => (rep_count r.1, current_phase r.1)) <$>
                run arccos_step (replicate 5 standing)
                  (mkRepCounter SQUAT 0.7 0 DOWN [] (_get_exercise_thresholds SQUAT) None)
              = Some (1, NEUTRAL)) by (vm_compute; reflexivity).
  rewrite Hrun in E. injection E as E1 E2. split; assumption.
Defined.

(** ** No descent, no repetition *)

(** X13.  A squat or push-up counter in phase NEUTRAL stays exactly as it
    is, count and phase included, as long as no frame has an angle below
    the down threshold (110 for squat, 90 for push-up): frames without
    landmarks, frames that fail the visibility gate and frames with a NaN
    angle count as such.  Standing or holding the plank is never counted. *)
Theorem no_descent_no_count (arccos : float -> float) (self : RepCounter)
    (frames : list MPLandmarks) :
  reachable arccos self ->
  exercise_type self = SQUAT \/ exercise_type self = PUSHUP ->
  current_phase self = NEUTRAL ->
  Forall (fun f => forall k : float,
            signal_reading arccos (exercise_type self) f = Some k ->
            (k <? down_angle (exercise_type self))%float = false) frames ->
  exists outs,
    run arccos frames self = Some (self, outs) /\
    counts outs = replicate (length frames) (rep_count self) /\
    phases outs = replicate (length frames) "neutral".
Proof.
  intros Hr Hkind Hp Hall. apply reachable_wf in Hr.
  induction Hall as [|f frames Hf _ IH].
  - exists []. repeat split; reflexivity.
  - destruct IH as (outs & Hrun & Hc & Hph).
    assert (Hu : exists a, update arccos f self =
                           Some (self, (rep_count self, phase_value (current_phase self), a))).
    { pose proof (update_by_reading arccos f self Hr Hkind) as Hu.
      destruct (signal_reading arccos (exercise_type self) f) as [k|]; [|exact Hu].
      destruct Hu as (s' & a & Hu & Hm).
      destruct Hr as (Ht & _).
      rewrite (angle_state_machine_kind k self Hkind Ht), Hp, (Hf k eq_refl) in Hm.
      injection Hm as <-. exists a. exact Hu. }
    destruct Hu as (a & Hu). eexists. cbn [run]. rewrite Hu. cbn [mbind option_bind].
    rewrite Hrun. cbn [mbind option_bind]. split; [reflexivity|].
    unfold counts, phases in *. cbn [fmap list_fmap length replicate fst snd].
    rewrite Hp. cbn [phase_value]. split; f_equal; assumption.
Qed.

Lemma no_descent_no_count_witness :
  let self := mkRepCounter SQUAT 0.7 0 NEUTRAL [] (_get_exercise_thresholds SQUAT) None in
  reachable arccos_step self /\
  exists outs,
    run arccos_step [standing; knee_hidden; None; standing] self = Some (self, outs) /\
    counts outs = [0; 0; 0; 0].
Proof.
  cbn zeta.
  assert (Hr : reachable arccos_step
                 (mkRepCounter SQUAT 0.7 0 NEUTRAL [] (_get_exercise_thresholds SQUAT) None))
    by (apply (reachable_init arccos_step "squat" 0.7%float); reflexivity).
  split; [exact Hr|].
  assert (Hall : Forall (fun f => forall k : float,
                           signal_reading arccos_step SQUAT f = Some k ->
                           (k <? 110)%float = false)
                        [standing; knee_hidden; None; standing]).
  { repeat constructor; intros k Hk; vm_compute in Hk;
      first [discriminate Hk | injection Hk as <-; reflexivity]. }
  destruct (no_descent_no_count arccos_step _ [standing; knee_hidden; None; standing]
              Hr (or_introl eq_refl) eq_refl Hall) as (outs & Hrun & Hc & _).
  exists outs. split; [exact Hrun | exact Hc].
Defined.

(** ** A knee that coincides with the hip or the ankle *)

(** The standing pose with the knee reported on the hip. *)
Definition knee_on_hip : MPLandmarks :=
  Some (pose_of [ ("left_shoulder", joint 0.5 0.25); ("left_hip", joint 0.5 0.5);
                  ("left_knee", joint 0.5 0.5); ("left_ankle", joint 0.5 1) ]).

(** X14.  When the required squat joints are visible but the detector
    puts the knee at the same point as the hip or the ankle, the knee angle
    is NaN; every comparison with it is false, so the update reports no
    knee message and returns the counter exactly as it was, in whatever
    phase: such a frame can neither start nor complete a repetition. *)
Theorem squat_degenerate_knee (arccos : float -> float) (self : RepCounter)
    (mp : MPLandmarks) (hip knee ankle shoulder : PoseLandmark) :
  arccos nan = nan ->
  reachable arccos self ->
  exercise_type self = SQUAT ->
  _mediapipe_to_landmarks mp !! "left_hip" = Some hip ->
  _mediapipe_to_landmarks mp !! "left_knee" = Some knee ->
  _mediapipe_to_landmarks mp !! "left_ankle" = Some ankle ->
  _mediapipe_to_landmarks mp !! "left_shoulder" = Some shoulder ->
  (0.5 <? visibility hip)%float = true ->
  (0.5 <? visibility knee)%float = true ->
  (0.5 <? visibility ankle)%float = true ->
  (0.5 <? visibility shoulder)%float = true ->
  (x hip = x knee /\ y hip = y knee) \/ (x ankle = x knee /\ y ankle = y knee) ->
  exists analysis errors,
    update arccos mp self =
    Some (self, (rep_count self, phase_value (current_phase self), analysis)) /\
    analysis !! "knee_angle" = Some (PyFloat nan) /\
    analysis !! "errors" = Some (PyStrList errors) /\
    ("Squat too deep" ∉ errors) /\ ("Squat not deep enough" ∉ errors).
Proof.
  intros Hnan Hr Et Hh Hk Ha Hs Vh Vk Va Vs Hdeg. apply reachable_wf in Hr.
  assert (Hv : all_visible (_mediapipe_to_landmarks mp) squat_required = true).
  { apply all_visible_intro. intros lm Hlm. unfold squat_required in Hlm.
    repeat (apply elem_of_cons in Hlm; destruct Hlm as [->|Hlm]); eauto.
    inversion Hlm. }
  pose proof (analyze_squat_visible arccos _ _ _ _ _ Hh Hk Ha Hs Hv) as Han.
  assert (Hknee : calculate_angle arccos hip knee ankle = nan).
  { apply calculate_angle_of_nan_cosine; [exact Hnan|].
    destruct Hdeg as [[Hx Hy] | [Hx Hy]].
    - apply cosine_angle_vertex_on_first; assumption.
    - apply cosine_angle_vertex_on_third; assumption. }
  rewrite Hknee in Han.
  unfold update. destruct (decide (_mediapipe_to_landmarks mp = ∅)) as [He|_].
  { rewrite He in Hh. discriminate Hh. }
  rewrite Et, (count_squats_visible _ _ _ _ _ Han).
  destruct Hr as (Ht & _). rewrite Et in Ht.
  rewrite (angle_state_machine_squat _ _ Ht).
  assert (Hsame : match current_phase self with
                  | NEUTRAL => if (nan <? 110)%float then set_current_phase DOWN self else self
                  | DOWN => if (160 <? nan)%float
                            then set_rep_count (rep_count self + 1) (set_current_phase UP self)
                            else self
                  | UP => if (160 <? nan)%float then set_current_phase NEUTRAL self else self
                  | EXTENDED => self
                  end = self)
    by (destruct (current_phase self); reflexivity).
  rewrite Hsame. cbn [fmap option_fmap option_map finish].
  eexists _, (if (calculate_angle arccos shoulder hip knee <? 160)%float
              then ["Back bent forward"] else []).
  split; [reflexivity|]. split; [reflexivity|].
  split; [unfold squat_report; destruct (_ <? 160)%float; reflexivity|].
  split; destruct (_ <? 160)%float; intros Hin;
    repeat (apply elem_of_cons in Hin; destruct Hin as [Hin|Hin]; [discriminate Hin|]);
    inversion Hin.
Qed.

Lemma squat_degenerate_knee_witness :
  let self := mkRepCounter SQUAT 0.7 0 DOWN [] (_get_exercise_thresholds SQUAT) None in
  reachable arccos_step self /\
  exists analysis errors,
    update arccos_step knee_on_hip self = Some (self, (0, "down", analysis)) /\
    analysis !! "knee_angle" = Some (PyFloat nan) /\
    analysis !! "errors" = Some (PyStrList errors).
Proof.
  cbn zeta.
  assert (Hr : reachable arccos_step
                 (mkRepCounter SQUAT 0.7 0 DOWN [] (_get_exercise_thresholds SQUAT) None)).
  { eapply (reachable_update arccos_step _ squatting).
    - apply (reachable_init arccos_step "squat" 0.7%float). reflexivity.
    - vm_compute. reflexivity. }
  split; [exact Hr|].
  destruct (squat_degenerate_knee arccos_step _ knee_on_hip
              (joint 0.5 0.5) (joint 0.5 0.5) (joint 0.5 1) (joint 0.5 0.25)
              eq_refl Hr eq_refl eq_refl eq_refl eq_refl eq_refl
              eq_refl eq_refl eq_refl eq_refl (or_introl (conj eq_refl eq_refl)))
    as (analysis & errors & Hu & Hk & He & _).
  exists analysis, errors. split; [exact Hu|]. split; assumption.
Defined.

(** ** The frame that sets the jump baseline *)

Lemma above_tenth_zn (z : float) : F.is_zero_or_nan z -> (0.1 <? z)%float = false.
Proof.
  unfold F.is_zero_or_nan. rewrite FloatAxioms.ltb_spec.
  destruct (Prim2SF z) as [s|s| |s m e]; try tauto; intros _; reflexivity.
Qed.

(** A jump counter without a baseline has not left its initial state. *)
Lemma jump_without_baseline (arccos : float -> float) (self : RepCounter) :
  reachable arccos self ->
  exercise_type self = JUMP ->
  baseline_y self = None ->
  current_phase self = NEUTRAL /\ rep_count self = 0.
Proof.
  induction 1 as [name ct self Hi | self mp self' out Hr IH Hu | self Hr IH].
  - intros _ _. unfold RepCounter_init in Hi.
    destruct (ExerciseType_of_value name); [|discriminate]. injection Hi as <-.
    split; reflexivity.
  - intros Et Hb. pose proof (reachable_wf _ _ Hr) as Hwf.
    destruct (update_stepped arccos mp self Hwf) as (s & a & Hs & Hst & Hkeep).
    rewrite Hs in Hu. injection Hu as <- _.
    assert (Et0 : exercise_type self = JUMP) by (rewrite <- Et; symmetry; apply Hst).
    unfold update in Hs. destruct (decide (_mediapipe_to_landmarks mp = ∅)).
    { injection Hs as <- _. exact (IH Et0 Hb). }
    rewrite Et0 in Hs.
    destruct (_mediapipe_to_landmarks mp !! "left_ankle") as [la|] eqn:Hl;
      [destruct (_mediapipe_to_landmarks mp !! "right_ankle") as [ra|] eqn:Hra|].
    + exfalso. rewrite (count_jumps_present _ _ _ _ Hl Hra) in Hs.
      set (base := match baseline_y self with
                   | Some b => b
                   | None => ((y la + y ra) / 2)%float
                   end) in Hs.
      assert (Ht : thresholds (set_baseline_y (Some base) self) = _get_exercise_thresholds JUMP).
      { destruct Hwf as (Ht & _). rewrite Et0 in Ht. exact Ht. }
      rewrite (jump_state_machine_jump _ _ Ht) in Hs.
      cbn [fmap option_fmap option_map] in Hs. injection Hs as Hs _.
      rewrite <- Hs in Hb. clear Hs.
      cbn in Hb. destruct (current_phase self);
        repeat match type of Hb with context [if ?c then _ else _] => destruct c end;
        cbn in Hb; discriminate Hb.
    + rewrite count_jumps_missing in Hs by (right; exact Hra).
      injection Hs as <- _. exact (IH Et0 Hb).
    + rewrite count_jumps_missing in Hs by (left; exact Hl).
      injection Hs as <- _. exact (IH Et0 Hb).
  - intros _ _. destruct self as [t ct n p h th [b|]]; split; reflexivity.
Qed.

(** X15.  On a jump counter that has no baseline yet (new, or just reset),
    the first frame with both ankle entries only calibrates: it stores the
    average ankle height as baseline, reports a displacement that is zero
    or NaN, and leaves the counter in phase NEUTRAL with count 0; a jump
    already under way in that frame is not detected. *)
Theorem jump_calibration_frame (arccos : float -> float) (self : RepCounter)
    (mp : MPLandmarks) (left_ankle right_ankle : PoseLandmark) :
  reachable arccos self ->
  exercise_type self = JUMP ->
  baseline_y self = None ->
  _mediapipe_to_landmarks mp !! "left_ankle" = Some left_ankle ->
  _mediapipe_to_landmarks mp !! "right_ankle" = Some right_ankle ->
  let avg_ankle_y := ((y left_ankle + y right_ankle) / 2)%float in
  exists analysis displacement,
    update arccos mp self =
    Some (set_baseline_y (Some avg_ankle_y) self, (0, "neutral", analysis)) /\
    current_phase self = NEUTRAL /\ rep_count self = 0 /\
    analysis !! "displacement" = Some (PyFloat displacement) /\
    F.is_zero_or_nan displacement.
Proof.
  intros Hr Et Hb Hl Hra. cbn zeta.
  destruct (jump_without_baseline arccos self Hr Et Hb) as [Hp Hn].
  apply reachable_wf in Hr.
  unfold update. destruct (decide (_mediapipe_to_landmarks mp = ∅)) as [He|_].
  { rewrite He in Hl. discriminate Hl. }
  rewrite Et, (count_jumps_present _ _ _ _ Hl Hra), Hb.
  set (avg := ((y left_ankle + y right_ankle) / 2)%float).
  assert (Ht : thresholds (set_baseline_y (Some avg) self) = _get_exercise_thresholds JUMP).
  { destruct Hr as (Ht & _). rewrite Et in Ht. exact Ht. }
  rewrite (jump_state_machine_jump _ _ Ht).
  change (current_phase (set_baseline_y (Some avg) self)) with (current_phase self).
  rewrite Hp, (above_tenth_zn _ (FloatFacts.sub_self_zn avg)).
  cbn [fmap option_fmap option_map].
  change (rep_count (set_baseline_y (Some avg) self)) with (rep_count self).
  change (current_phase (set_baseline_y (Some avg) self)) with (current_phase self).
  rewrite Hp, Hn. cbn [phase_value].
  eexists _, (avg - avg)%float. split; [reflexivity|].
  split; [reflexivity|]. split; [reflexivity|]. split; [reflexivity|].
  apply FloatFacts.sub_self_zn.
Qed.

Lemma jump_calibration_frame_witness :
  let self := mkRepCounter JUMP 0.7 0 NEUTRAL [] (_get_exercise_thresholds JUMP) None in
  reachable arccos_step self /\
  exists analysis displacement,
    update arccos_step (ankles_at 0.25) self =
    Some (set_baseline_y (Some 0.25%float) self, (0, "neutral", analysis)) /\
    analysis !! "displacement" = Some (PyFloat displacement).
Proof.
  cbn zeta.
  assert (Hr : reachable arccos_step
                 (mkRepCounter JUMP 0.7 0 NEUTRAL [] (_get_exercise_thresholds JUMP) None))
    by (apply (reachable_init arccos_step "jump" 0.7%float); reflexivity).
  split; [exact Hr|].
  destruct (jump_calibration_frame arccos_step _ (ankles_at 0.25)
              (joint 0.25 0.25) (joint 0.75 0.25) Hr eq_refl eq_refl eq_refl eq_refl)
    as (analysis & d & Hu & _ & _ & Hd & _).
  exists analysis, d. split; [exact Hu | exact Hd].
Defined.
